(** * CityFacts front end: the [App] component of [App.jsx]

    The file [src/Frontend/cityfacts-frontend/src/App.jsx] holds two versions
    of one React component:

    - the [fetch] version (backend on port 4050): one [GET /city/{name}];
    - the [axios] version (backend on port 8000): [GET /city/{name}], and
      when the answer has no facts, [GET /city/gemini/{name}] followed by
      [POST /city].

    Both are embedded here.  JavaScript values are an inductive type,
    strings are sequences of UTF-16 code units, the [async] submit handler
    is a term of a small free monad whose nodes are the state setters and
    the suspension points at the network, and the JSX returned by [App] is a
    tree of elements. *)

From Stdlib Require Import List NArith ZArith Bool String Ascii Lia.
Import ListNotations.

Local Open Scope string_scope.
Local Open Scope list_scope.

(** ** JavaScript strings and values *)

(** A JavaScript string is a sequence of 16-bit code units. *)
Definition jsstring := list N.

(** The code units of an ASCII literal of the source text. *)
Definition lit (s : string) : jsstring :=
  List.map N_of_ascii (list_ascii_of_string s).

Fixpoint jsstring_eqb (a b : jsstring) : bool :=
  match a, b with
  | [], [] => true
  | x :: a', y :: b' => N.eqb x y && jsstring_eqb a' b'
  | _, _ => false
  end.

(** Values: what [JSON.parse] produces, plus [undefined].  Numbers are
    restricted to the integers; only their truthiness is ever inspected. *)
#[warnings="-register-all"]
Inductive jsval : Type :=
| JUndefined
| JNull
| JBool (b : bool)
| JNum (z : Z)
| JStr (s : jsstring)
| JArr (items : list jsval)
| JObj (fields : list (jsstring * jsval)).

(** [ToBoolean]. *)
Definition truthy (v : jsval) : bool :=
  match v with
  | JUndefined | JNull => false
  | JBool b => b
  | JNum z => negb (Z.eqb z 0)
  | JStr s => match s with [] => false | _ :: _ => true end
  | JArr _ | JObj _ => true
  end.

Definition nullish (v : jsval) : bool :=
  match v with
  | JUndefined | JNull => true
  | _ => false
  end.

(** [a || b] *)
Definition or_else (a b : jsval) : jsval := if truthy a then a else b.

Fixpoint lookup (k : jsstring) (fields : list (jsstring * jsval)) : option jsval :=
  match fields with
  | [] => None
  | (k', v) :: rest => if jsstring_eqb k k' then Some v else lookup k rest
  end.

(** ** [String.prototype.trim] and [String.prototype.split] *)

(** ECMAScript [WhiteSpace] and [LineTerminator] code points. *)
Definition is_ws (c : N) : bool :=
  (N.eqb c 9 || N.eqb c 10 || N.eqb c 11 || N.eqb c 12 || N.eqb c 13
   || N.eqb c 32 || N.eqb c 160 || N.eqb c 5760
   || (N.leb 8192 c && N.leb c 8202)
   || N.eqb c 8232 || N.eqb c 8233 || N.eqb c 8239 || N.eqb c 8287
   || N.eqb c 12288 || N.eqb c 65279)%bool.

Fixpoint trim_start (s : jsstring) : jsstring :=
  match s with
  | [] => []
  | c :: r => if is_ws c then trim_start r else s
  end.

Definition trim_end (s : jsstring) : jsstring := rev (trim_start (rev s)).

Definition trim (s : jsstring) : jsstring := trim_end (trim_start s).

Definition newline : N := 10.

(** [s.split("\n")]: the pieces of [s] between the line feeds.  There is
    always at least one piece. *)
Fixpoint split_nl (s : jsstring) : list jsstring :=
  match s with
  | [] => [[]]
  | c :: r =>
      if N.eqb c newline then [] :: split_nl r
      else match split_nl r with
           | [] => [[c]]
           | h :: t => (c :: h) :: t
           end
  end.

(** [pieces.join("\n")], the inverse the split is measured against. *)
Fixpoint join_nl (pieces : list jsstring) : jsstring :=
  match pieces with
  | [] => []
  | [p] => p
  | p :: rest => p ++ newline :: join_nl rest
  end.

(** ** Component state *)

(** The four [useState] cells.  [cityName] only ever receives the value of
    a text input; [cityFacts] and [error] receive whatever the backend
    sent. *)
Record state : Type := mkState {
  cityName : jsstring;
  cityFacts : jsval;
  isLoading : bool;
  error : jsval
}.

(** [useState("")], [useState("")], [useState(false)], [useState("")]. *)
Definition initial : state :=
  {| cityName := []; cityFacts := JStr []; isLoading := false; error := JStr [] |}.

Inductive setter : Type :=
| SetCityName (v : jsstring)
| SetCityFacts (v : jsval)
| SetIsLoading (b : bool)
| SetError (v : jsval).

Definition apply_setter (s : state) (u : setter) : state :=
  match u with
  | SetCityName v =>
      {| cityName := v; cityFacts := cityFacts s; isLoading := isLoading s; error := error s |}
  | SetCityFacts v =>
      {| cityName := cityName s; cityFacts := v; isLoading := isLoading s; error := error s |}
  | SetIsLoading b =>
      {| cityName := cityName s; cityFacts := cityFacts s; isLoading := b; error := error s |}
  | SetError v =>
      {| cityName := cityName s; cityFacts := cityFacts s; isLoading := isLoading s; error := v |}
  end.

(** ** The network *)

Inductive request : Type :=
| Get (url : jsstring)
| Post (url : jsstring) (payload : jsval).

(** A response body is JSON text, or text that does not parse as JSON. *)
Inductive body : Type :=
| BodyJson (v : jsval)
| BodyText (s : jsstring).

Inductive http_reply : Type :=
| NetworkError
| Http (status : Z) (b : body).

(** The backend is not part of the repository: it is any function from the
    requests already made by the running handler and the present request to
    a reply. *)
Definition network := list request -> request -> http_reply.

Definition is_2xx (status : Z) : bool := (Z.leb 200 status && Z.leb status 299)%bool.

(** ** The monad of an [async] function body *)

Inductive js (A : Type) : Type :=
| Ret (a : A)
| Throw (e : jsval)
| Upd (u : setter) (k : js A)
| Await (r : request) (k : http_reply -> js A).

Arguments Ret {A} a.
Arguments Throw {A} e.
Arguments Upd {A} u k.
Arguments Await {A} r k.

Fixpoint bind {A B : Type} (m : js A) (f : A -> js B) : js B :=
  match m with
  | Ret a => f a
  | Throw e => Throw e
  | Upd u k => Upd u (bind k f)
  | Await r k => Await r (fun a => bind (k a) f)
  end.

Declare Scope js_scope.
Delimit Scope js_scope with js.
Notation "x <- m ;; k" := (bind m (fun x => k))
  (at level 100, m at next level, right associativity) : js_scope.
Notation "m ;; k" := (bind m (fun _ => k))
  (at level 100, right associativity) : js_scope.
Local Open Scope js_scope.

(** [try { body } catch (err) { handler err }] *)
Fixpoint try_catch {A : Type} (b : js A) (handler : jsval -> js A) : js A :=
  match b with
  | Ret a => Ret a
  | Throw e => handler e
  | Upd u k => Upd u (try_catch k handler)
  | Await r k => Await r (fun a => try_catch (k a) handler)
  end.

(** [try { body } finally { fin }]: [fin] runs on the normal and on the
    exceptional exit, and the exit of [body] is resumed after it. *)
Fixpoint finally {A : Type} (b : js A) (fin : js unit) : js A :=
  match b with
  | Ret a => fin ;; Ret a
  | Throw e => fin ;; Throw e
  | Upd u k => Upd u (finally k fin)
  | Await r k => Await r (fun a => finally (k a) fin)
  end.

Definition setCityName (v : jsstring) : js unit := Upd (SetCityName v) (Ret tt).
Definition setCityFacts (v : jsval) : js unit := Upd (SetCityFacts v) (Ret tt).
Definition setIsLoading (b : bool) : js unit := Upd (SetIsLoading b) (Ret tt).
Definition setError (v : jsval) : js unit := Upd (SetError v) (Ret tt).

(** The [TypeError] object a failed property read or a failed [fetch]
    throws; it has no [response] property. *)
Definition type_error : jsval := JObj [(lit "name", JStr (lit "TypeError"))].

Definition syntax_error : jsval := JObj [(lit "name", JStr (lit "SyntaxError"))].

(** [v.k] for a property name [k] that no prototype defines ([facts],
    [detail], [response], [data]): reading it off [undefined] or [null]
    throws, off an object it is the field or [undefined], off any other
    value it is [undefined]. *)
Definition get_prop (k : string) (v : jsval) : js jsval :=
  match v with
  | JUndefined | JNull => Throw type_error
  | JObj fields =>
      match lookup (lit k) fields with
      | Some x => Ret x
      | None => Ret JUndefined
      end
  | _ => Ret JUndefined
  end.

(** [err.response?.data?.detail] *)
Definition error_detail (err : jsval) : js jsval :=
  response <- get_prop "response" err ;;
  if nullish response then Ret JUndefined
  else
    data <- get_prop "data" response ;;
    if nullish data then Ret JUndefined
    else get_prop "detail" data.

(** ** The two HTTP clients *)

(** What [fetch] resolves with.  [fetch] rejects only when no response
    arrives; a response of any status resolves. *)
Record fetch_response : Type := mkResponse {
  resp_status : Z;
  resp_body : body
}.

(** [response.ok] *)
Definition ok (r : fetch_response) : bool := is_2xx (resp_status r).

(** [fetch(url, { method: "GET", headers: ... })] *)
Definition fetch (url : jsstring) : js fetch_response :=
  Await (Get url) (fun a =>
    match a with
    | NetworkError => Throw type_error
    | Http status b => Ret (mkResponse status b)
    end).

(** [response.json()] *)
Definition json (r : fetch_response) : js jsval :=
  match resp_body r with
  | BodyJson v => Ret v
  | BodyText _ => Throw syntax_error
  end.

(** [axios] parses a JSON body and hands any other body over as a string. *)
Definition axios_data (b : body) : jsval :=
  match b with
  | BodyJson v => v
  | BodyText s => JStr s
  end.

Definition axios_response (status : Z) (b : body) : jsval :=
  JObj [(lit "data", axios_data b); (lit "status", JNum status)].

(** The error [axios] rejects with: it carries the response when there was
    one. *)
Definition axios_error (response : option jsval) : jsval :=
  match response with
  | Some r => JObj [(lit "name", JStr (lit "AxiosError")); (lit "response", r)]
  | None => JObj [(lit "name", JStr (lit "AxiosError"))]
  end.

(** With the default [validateStatus], [axios] resolves on a 2xx status and
    rejects on every other status and on a network error. *)
Definition axios_settle (a : http_reply) : js jsval :=
  match a with
  | NetworkError => Throw (axios_error None)
  | Http status b =>
      if is_2xx status then Ret (axios_response status b)
      else Throw (axios_error (Some (axios_response status b)))
  end.

(** [axios.get(url)] *)
Definition axios_get (url : jsstring) : js jsval := Await (Get url) axios_settle.

(** [axios.post(url, payload)] *)
Definition axios_post (url : jsstring) (payload : jsval) : js jsval :=
  Await (Post url payload) axios_settle.

(** ** The submit handlers *)

Definition msg_empty : jsval := JStr (lit "Please enter a city name").
Definition msg_wrong : jsval := JStr (lit "Something went wrong").
Definition msg_failed : jsval := JStr (lit "Failed to fetch city facts").

(** [handleSubmit] of the [fetch] version (lines 12-43).  [cityName] is the
    value the handler closed over; [e.preventDefault()] touches no state. *)
Definition handleSubmit_fetch (cityName : jsstring) : js unit :=
  if negb (truthy (JStr (trim cityName))) then
    setError msg_empty
  else
    setIsLoading true ;;
    setError (JStr (lit "")) ;;
    finally
      (try_catch
         (response <- fetch (lit "http://localhost:4050/city/" ++ cityName) ;;
          if ok response then
            data <- json response ;;
            facts <- get_prop "facts" data ;;
            setCityFacts facts
          else
            setError msg_wrong)
         (fun err =>
            detail <- error_detail err ;;
            setError (or_else detail msg_failed)))
      (setIsLoading false).

(** [handleSubmit] of the [axios] version (lines 118-151). *)
Definition handleSubmit_axios (cityName : jsstring) : js unit :=
  if negb (truthy (JStr (trim cityName))) then
    setError msg_empty
  else
    setIsLoading true ;;
    setError (JStr (lit "")) ;;
    finally
      (try_catch
         (response <- axios_get (lit "http://localhost:8000/city/" ++ cityName) ;;
          data <- get_prop "data" response ;;
          facts <- get_prop "facts" data ;;
          if truthy facts then
            setCityFacts facts
          else
            geminiResponse <- axios_get (lit "http://localhost:8000/city/gemini/" ++ cityName) ;;
            gdata <- get_prop "data" geminiResponse ;;
            gfacts <- get_prop "facts" gdata ;;
            setCityFacts gfacts ;;
            _ <- axios_post (lit "http://localhost:8000/city")
                   (JObj [(lit "name", JStr cityName); (lit "facts", gfacts)]) ;;
            Ret tt)
         (fun err =>
            detail <- error_detail err ;;
            setError (or_else detail msg_failed)))
      (setIsLoading false).

Inductive version : Type := FetchVersion | AxiosVersion.

Definition handleSubmit (v : version) (cityName : jsstring) : js unit :=
  match v with
  | FetchVersion => handleSubmit_fetch cityName
  | AxiosVersion => handleSubmit_axios cityName
  end.

(** [onChange={(e) => setCityName(e.target.value)}] *)
Definition handleChange (value : jsstring) : js unit := setCityName value.

(** ** Running a handler *)

Inductive event : Type :=
| EvSet (u : setter)
| EvReq (r : request) (a : http_reply).

Inductive completion (A : Type) : Type :=
| Returned (a : A)
| Thrown (e : jsval).

Arguments Returned {A} a.
Arguments Thrown {A} e.

(** The handler runs against a backend; [hist] holds the requests it has
    made so far, oldest first.  The result is everything it did, in order,
    and how it ended. *)
Fixpoint run {A : Type} (net : network) (hist : list request) (c : js A)
  : list event * completion A :=
  match c with
  | Ret a => ([], Returned a)
  | Throw e => ([], Thrown e)
  | Upd u k =>
      let (tr, r) := run net hist k in (EvSet u :: tr, r)
  | Await q k =>
      let a := net hist q in
      let (tr, r) := run net (hist ++ [q]) (k a) in (EvReq q a :: tr, r)
  end.

Definition apply_event (s : state) (e : event) : state :=
  match e with
  | EvSet u => apply_setter s u
  | EvReq _ _ => s
  end.

(** The state updates of a trace, applied in the order they were queued. *)
Definition apply_trace (s : state) (tr : list event) : state :=
  fold_left apply_event tr s.

Definition trace_of (v : version) (net : network) (s : state) : list event :=
  fst (run net [] (handleSubmit v (cityName s))).

(** The state once the submit started in state [s] has settled. *)
Definition submit (v : version) (net : network) (s : state) : state :=
  apply_trace s (trace_of v net s).

(** A backend that cannot be reached. *)
Definition offline : network := fun _ _ => NetworkError.

(** The state after the input field changed to [value]. *)
Definition change (value : jsstring) (s : state) : state :=
  apply_trace s (fst (run offline [] (handleChange value))).

(** The two things a user can do to the form. *)
Inductive op : Type :=
| Change (value : jsstring)
| Submit (net : network).

Definition op_trace (v : version) (s : state) (o : op) : list event :=
  match o with
  | Change value => fst (run offline [] (handleChange value))
  | Submit net => trace_of v net s
  end.

Definition step (v : version) (s : state) (o : op) : state :=
  apply_trace s (op_trace v s o).

(** The addresses the handlers build. *)
Definition city_url (v : version) (n : jsstring) : jsstring :=
  match v with
  | FetchVersion => lit "http://localhost:4050/city/" ++ n
  | AxiosVersion => lit "http://localhost:8000/city/" ++ n
  end.

Definition gemini_url (n : jsstring) : jsstring :=
  lit "http://localhost:8000/city/gemini/" ++ n.

Definition save_url : jsstring := lit "http://localhost:8000/city".

Definition save_payload (n : jsstring) (facts : jsval) : jsval :=
  JObj [(lit "name", JStr n); (lit "facts", facts)].

(** ** Shapes of programs and traces *)

(** A program that only talks to the network and sets [cityFacts]. *)
Fixpoint calm {A : Type} (c : js A) : Prop :=
  match c with
  | Ret _ | Throw _ => True
  | Upd (SetCityFacts _) k => calm k
  | Upd _ _ => False
  | Await _ k => forall a, calm (k a)
  end.

(** A program that does the same and may end by setting [error]. *)
Fixpoint settles {A : Type} (c : js A) : Prop :=
  match c with
  | Ret _ | Throw _ => True
  | Upd (SetCityFacts _) k => settles k
  | Upd (SetError _) (Ret _) => True
  | Upd _ _ => False
  | Await _ k => forall a, settles (k a)
  end.

(** An event that is a request or an update of [cityFacts]. *)
Definition quiet (e : event) : Prop :=
  match e with
  | EvReq _ _ => True
  | EvSet (SetCityFacts _) => True
  | EvSet _ => False
  end.

(** An event that does not set [error] to a truthy value. *)
Definition no_alarm (e : event) : Prop :=
  match e with
  | EvSet (SetError x) => truthy x = false
  | _ => True
  end.

(** Scanning a trace from its start, a [POST] is met before any update of
    [cityFacts]. *)
Fixpoint posted_before_set (tr : list event) : bool :=
  match tr with
  | [] => false
  | EvReq (Post _ _) _ :: _ => true
  | EvSet (SetCityFacts _) :: _ => false
  | _ :: rest => posted_before_set rest
  end.

(** The value of the field [k] of a parsed JSON object. *)
Definition field_or_undefined (k : string) (fields : list (jsstring * jsval)) : jsval :=
  match lookup (lit k) fields with
  | Some x => x
  | None => JUndefined
  end.

(** The [detail] field of a failure payload, [undefined] when the payload
    has none. *)
Definition payload_detail (b : body) : jsval :=
  match b with
  | BodyJson (JObj fields) =>
      match lookup (lit "detail") fields with
      | Some d => d
      | None => JUndefined
      end
  | _ => JUndefined
  end.

Definition requests (tr : list event) : list request :=
  flat_map (fun e => match e with EvReq r _ => [r] | EvSet _ => [] end) tr.

(** ** The rendered tree *)

(** The attributes the JSX of [App] uses.  The [onSubmit] and [onChange]
    attributes are the handlers above. *)
Record attrs : Type := mkAttrs {
  className : string;
  type_ : option string;
  value : option jsstring;
  placeholder : option string;
  disabled : option bool;
  key : option nat
}.

Definition cls (c : string) : attrs :=
  {| className := c; type_ := None; value := None; placeholder := None;
     disabled := None; key := None |}.

(** What [App] returns: elements, text, a JavaScript value in braces, a
    fragment [<>...</>], or an array of elements in braces. *)
#[warnings="-register-all"]
Inductive vnode : Type :=
| Text (s : jsstring)
| Val (v : jsval)
| Elem (tag : string) (a : attrs) (children : list vnode)
| Fragment (children : list vnode)
| Array (items : list vnode).

(** [l.map((x, i) => f x i)], counting from [i]. *)
Fixpoint map_index {A B : Type} (f : A -> nat -> B) (i : nat) (l : list A) : list B :=
  match l with
  | [] => []
  | x :: r => f x i :: map_index f (S i) r
  end.

(** [<p key={i} className="fact-line">{line}</p>] *)
Definition fact_line (line : jsstring) (i : nat) : vnode :=
  Elem "p"
    {| className := "fact-line"; type_ := None; value := None; placeholder := None;
       disabled := None; key := Some i |}
    [Text line].

Definition placeholder_text : vnode :=
  Elem "p" (cls "placeholder-text")
    [Text (lit "Enter a city name above to discover interesting facts about its history, culture, and more.")].

(** The child of [facts-textarea].  [split] exists on strings only: a
    truthy [cityFacts] of another type makes the call throw, and the render
    with it. *)
Definition facts_body (facts : jsval) : option vnode :=
  if truthy facts then
    match facts with
    | JStr f => Some (Array (map_index fact_line 0 (split_nl f)))
    | _ => None
    end
  else Some placeholder_text.

(** [{error && <div className="error-message">{error}</div>}] *)
Definition error_banner (err : jsval) : vnode :=
  if truthy err then Elem "div" (cls "error-message") [Val err] else Val err.

Definition search_input (s : state) : vnode :=
  Elem "input"
    {| className := "search-input"; type_ := Some "text"; value := Some (cityName s);
       placeholder := Some "Enter a city name (e.g., Paris, Tokyo)";
       disabled := Some (isLoading s); key := None |}
    [].

Definition search_button (s : state) : vnode :=
  Elem "button"
    {| className := "search-button"; type_ := Some "submit"; value := None;
       placeholder := None; disabled := Some (isLoading s); key := None |}
    [if isLoading s
     then Fragment [Elem "span" (cls "spinner") []; Text (lit "Searching...")]
     else Text (lit "Get City Facts")].

Definition facts_title (s : state) : vnode :=
  Elem "h2" (cls "facts-title")
    [Text (if truthy (cityFacts s)
           then lit "About " ++ cityName s
           else lit "City Facts Will Appear Here")].

(** The [return ( ... )] of [App]; [None] when evaluating it throws. *)
Definition App (s : state) : option vnode :=
  match facts_body (cityFacts s) with
  | None => None
  | Some fb =>
      Some
        (Elem "div" (cls "app-container")
           [Elem "div" (cls "content-wrapper")
              [Elem "h1" (cls "app-title") [Text (lit "City Facts Explorer")];
               Elem "p" (cls "app-subtitle")
                 [Text (lit "Discover interesting facts about cities around the world")];
               Elem "form" (cls "search-form")
                 [Elem "div" (cls "input-group") [search_input s; search_button s]];
               error_banner (error s);
               Elem "div" (cls "facts-container")
                 [facts_title s;
                  Elem "div" (cls "facts-textarea") [fb]]]])
  end.

(** [getElementsByClassName]: the elements of class [c], in document
    order. *)
Fixpoint by_class (c : string) (t : vnode) : list vnode :=
  match t with
  | Text _ | Val _ => []
  | Elem _ a children =>
      (if String.eqb (className a) c then [t] else []) ++ flat_map (by_class c) children
  | Fragment children => flat_map (by_class c) children
  | Array items => flat_map (by_class c) items
  end.

(** [getElementsByTagName] *)
Fixpoint by_tag (g : string) (t : vnode) : list vnode :=
  match t with
  | Text _ | Val _ => []
  | Elem tag _ children =>
      (if String.eqb tag g then [t] else []) ++ flat_map (by_tag g) children
  | Fragment children => flat_map (by_tag g) children
  | Array items => flat_map (by_tag g) items
  end.

(** The elements of class [c] in the render of [s]. *)
Definition rendered (c : string) (s : state) : option (list vnode) :=
  option_map (by_class c) (App s).

(** ** Proof steps *)

(** Unfold one layer of a handler run. *)
Ltac eval_handler :=
  cbn [run bind finally try_catch fetch json axios_get axios_post axios_settle
       setIsLoading setError setCityFacts resp_status resp_body fst snd handleSubmit].

(** Name the addresses again after unfolding a handler. *)
Ltac fold_urls s :=
  change (lit "http://localhost:4050/city/" ++ cityName s)
    with (city_url FetchVersion (cityName s));
  change (lit "http://localhost:8000/city/" ++ cityName s)
    with (city_url AxiosVersion (cityName s));
  change (lit "http://localhost:8000/city/gemini/" ++ cityName s)
    with (gemini_url (cityName s));
  change (lit "http://localhost:8000/city") with save_url.

(** ** Sample inputs *)

Definition blank_state : state :=
  {| cityName := lit "   "; cityFacts := JStr []; isLoading := false; error := JStr [] |}.

Definition paris_state : state :=
  {| cityName := lit "Paris"; cityFacts := JStr []; isLoading := false; error := JStr [] |}.

(** The facts of the scenario of the specification: two lines. *)
Definition light : jsstring :=
  lit "City of Light" ++ newline :: lit "Famous for the Eiffel Tower".

(** A backend that knows the city. *)
Definition hit_net : network :=
  fun _ _ => Http 200 (BodyJson (JObj [(lit "facts", JStr light)])).

(** A backend that answers 500 with an empty JSON object. *)
Definition broken_net : network :=
  fun _ _ => Http 500 (BodyJson (JObj [])).

(** A backend that answers 200 with an empty JSON object. *)
Definition empty_net : network :=
  fun _ _ => Http 200 (BodyJson (JObj [])).

(** A backend that does not know the city, generates its facts, and
    answers the save request with [save_status]. *)
Definition gen_net (save_status : Z) : network :=
  fun hist _ =>
    match hist with
    | [] => Http 200 (BodyJson (JObj []))
    | [_] => Http 200 (BodyJson (JObj [(lit "facts", JStr light)]))
    | _ => Http save_status (BodyJson (JObj []))
    end.

Definition loading_state : state :=
  {| cityName := lit "Paris"; cityFacts := JStr []; isLoading := true; error := JStr [] |}.

(** ** Summaries of a run *)

(** [data.facts] for a [data] that is neither [undefined] nor [null]. *)
Definition facts_of (data : jsval) : jsval :=
  match data with
  | JObj fields => field_or_undefined "facts" fields
  | _ => JUndefined
  end.

(** The one update the [fetch] version makes between the request and the
    [finally] block, by the reply it got. *)
Definition fetch_settled (a : http_reply) : setter :=
  match a with
  | NetworkError => SetError msg_failed
  | Http status b =>
      if is_2xx status then
        match b with
        | BodyText _ => SetError msg_failed
        | BodyJson data =>
            if nullish data then SetError msg_failed
            else SetCityFacts (facts_of data)
        end
      else SetError msg_wrong
  end.

(** What the [axios] version gets out of a [GET]: the facts of the answer,
    or the message its [catch] block will show. *)
Definition axios_read (a : http_reply) : jsval + jsval :=
  match a with
  | NetworkError => inr msg_failed
  | Http status b =>
      if is_2xx status then
        if nullish (axios_data b) then inr msg_failed
        else inl (facts_of (axios_data b))
      else inr (or_else (payload_detail b) msg_failed)
  end.

(** What follows the [POST] of the [axios] version, by the reply it got. *)
Definition axios_saved (a : http_reply) : list event :=
  match a with
  | NetworkError => [EvSet (SetError msg_failed)]
  | Http status b =>
      if is_2xx status then []
      else [EvSet (SetError (or_else (payload_detail b) msg_failed))]
  end.

(** The events of the [try] and [catch] blocks of the [axios] version. *)
Definition axios_events (net : network) (n : jsstring) : list event :=
  let q1 := Get (city_url AxiosVersion n) in
  let a1 := net [] q1 in
  EvReq q1 a1 ::
  match axios_read a1 with
  | inr m => [EvSet (SetError m)]
  | inl facts =>
      if truthy facts then [EvSet (SetCityFacts facts)]
      else
        let q2 := Get (gemini_url n) in
        let a2 := net [q1] q2 in
        EvReq q2 a2 ::
        match axios_read a2 with
        | inr m => [EvSet (SetError m)]
        | inl g =>
            let q3 := Post save_url (save_payload n g) in
            EvSet (SetCityFacts g) :: EvReq q3 (net [q1; q2] q3) :: axios_saved (net [q1; q2] q3)
        end
  end.

(** The first answer makes the [axios] version turn to the generation
    endpoint: a 2xx status, a body that is not [null], no truthy facts. *)
Definition wants_generation (a : http_reply) : bool :=
  match a with
  | NetworkError => false
  | Http status b =>
      (is_2xx status && negb (nullish (axios_data b))
       && negb (truthy (facts_of (axios_data b))))%bool
  end.

(** The four messages the [fetch] version can leave in [error]. *)
Definition fetch_message (e : jsval) : Prop :=
  e = JStr [] \/ e = msg_empty \/ e = msg_wrong \/ e = msg_failed.

Definition is_post (r : request) : bool :=
  match r with
  | Post _ _ => true
  | Get _ => false
  end.

Definition sets_error (e : event) : bool :=
  match e with
  | EvSet (SetError _) => true
  | _ => false
  end.

Definition is_string (x : jsval) : bool :=
  match x with
  | JStr _ => true
  | _ => false
  end.

(** ** More sample inputs *)

(** A name typed with blanks around it. *)
Definition padded_state : state :=
  {| cityName := lit "  Paris "; cityFacts := JStr []; isLoading := false; error := JStr [] |}.

(** A backend that answers 404 with a [detail]. *)
Definition unknown_net : network :=
  fun _ _ => Http 404 (BodyJson (JObj [(lit "detail", JStr (lit "City not found"))])).

(** A backend that answers 200 with a page that is not JSON. *)
Definition html_net : network :=
  fun _ _ => Http 200 (BodyText (lit "<html></html>")).

(** A backend that does not know the city and whose generation endpoint is
    down. *)
Definition gen_down_net : network :=
  fun hist _ =>
    match hist with
    | [] => Http 200 (BodyJson (JObj []))
    | _ => Http 503 (BodyJson (JObj [(lit "detail", JStr (lit "Generation unavailable"))]))
    end.

(** A backend whose facts are a number. *)
Definition number_net : network :=
  fun _ _ => Http 200 (BodyJson (JObj [(lit "facts", JNum 42)])).

(** A short session: type a name, submit it to a failing backend. *)
Definition failed_session : list op :=
  [Change (lit "Paris"); Submit broken_net].

(** A backend that does not know the city and whose generation endpoint
    answers without facts. *)
Definition gen_empty_net : network :=
  fun _ _ => Http 200 (BodyJson (JObj [])).

Definition stale_state : state :=
  {| cityName := lit " "; cityFacts := JStr light; isLoading := false; error := JStr [] |}.

(** A form that shows the facts of a city. *)
Definition shown_state : state :=
  {| cityName := lit "Paris"; cityFacts := JStr light; isLoading := false; error := JStr [] |}.


(** A form whose facts are a number. *)
Definition number_state : state :=
  {| cityName := lit "Paris"; cityFacts := JNum 42; isLoading := false; error := JStr [] |}.

(** [pieces.join(sep)] for a one-unit separator [sep]. *)
Fixpoint join_with (sep : N) (pieces : list jsstring) : jsstring :=
  match pieces with
  | [] => []
  | [p] => p
  | p :: rest => p ++ sep :: join_with sep rest
  end.

(** ** Facts about [trim] *)

Lemma trim_start_nil (s : jsstring) :
  trim_start s = [] <-> forallb is_ws s = true.
Proof.
  induction s as [|c r IH]; simpl.
  - tauto.
  - destruct (is_ws c); simpl.
    + exact IH.
    + split; discriminate.
Qed.

Lemma trim_start_head (s : jsstring) (c : N) (r : jsstring) :
  trim_start s = c :: r -> is_ws c = false.
Proof.
  induction s as [|x t IH]; simpl.
  - discriminate.
  - destruct (is_ws x) eqn:E.
    + exact IH.
    + intros H. inversion H. subst. exact E.
Qed.

(** A string trims to the empty string exactly when it consists of white
    space only. *)
Lemma trim_nil (s : jsstring) :
  trim s = [] <-> forallb is_ws s = true.
Proof.
  unfold trim, trim_end. split.
  - intros H. apply trim_start_nil.
    destruct (trim_start s) as [|c r] eqn:E; [reflexivity|].
    exfalso. apply trim_start_head in E.
    apply (f_equal (@rev N)) in H. rewrite rev_involutive in H. simpl in H.
    apply trim_start_nil in H. rewrite forallb_app in H. simpl in H.
    rewrite E in H. rewrite andb_false_r in H. discriminate.
  - intros H. apply trim_start_nil in H. rewrite H. reflexivity.
Qed.

(** The test [!cityName.trim()] of both handlers. *)
Lemma blank_test (n : jsstring) :
  negb (truthy (JStr (trim n))) = true <-> trim n = [].
Proof.
  simpl. destruct (trim n); simpl; split; congruence.
Qed.

Lemma handleSubmit_blank (v : version) (n : jsstring) :
  trim n = [] -> handleSubmit v n = setError msg_empty.
Proof.
  intros H. apply blank_test in H.
  destruct v; unfold handleSubmit, handleSubmit_fetch, handleSubmit_axios;
    rewrite H; reflexivity.
Qed.

(** ** Validation *)

(** C1.  When the city name trims to the empty string, [handleSubmit] (in
    both versions, against any backend) does one thing: it sets [error] to
    "Please enter a city name".  It makes no request, and [isLoading] and
    [cityFacts] keep their values, so a form that was not loading is never
    seen loading. *)
Theorem submit_blank (v : version) (net : network) (s : state) :
  trim (cityName s) = [] ->
  run net [] (handleSubmit v (cityName s)) = ([EvSet (SetError msg_empty)], Returned tt)
  /\ requests (trace_of v net s) = []
  /\ error (submit v net s) = JStr (lit "Please enter a city name")
  /\ isLoading (submit v net s) = isLoading s
  /\ cityFacts (submit v net s) = cityFacts s
  /\ (forall pre post, trace_of v net s = pre ++ post ->
      isLoading (apply_trace s pre) = isLoading s).
Proof.
  intros H. unfold submit, trace_of. rewrite (handleSubmit_blank v _ H). simpl.
  do 5 (split; [reflexivity|]).
  intros pre post E.
  destruct pre as [|e pre]; [reflexivity|].
  destruct pre as [|e' pre]; simpl in E.
  - inversion E. reflexivity.
  - inversion E.
Qed.

Lemma submit_blank_witness :
  error (submit FetchVersion offline blank_state) = JStr (lit "Please enter a city name")
  /\ requests (trace_of FetchVersion offline blank_state) = [].
Proof.
  destruct (submit_blank FetchVersion offline blank_state) as (_ & Hreq & Herr & _).
  - vm_compute. reflexivity.
  - split; [exact Herr | exact Hreq].
Defined.

(** ** Editing the input *)

Lemma last_cons_default {A : Type} (l : list A) (a d d' : A) :
  last (a :: l) d = last (a :: l) d'.
Proof.
  revert a. induction l as [|b t IH]; intros a.
  - reflexivity.
  - change (last (b :: t) d = last (b :: t) d'). apply IH.
Qed.

(** C7.  [setCityName] replaces the pending city name and nothing else:
    after any number of edits the facts, the error message and the loading
    flag are the ones the last submit left, and the city name is the last
    value typed. *)
Theorem change_frame (values : list jsstring) (s : state) :
  let s' := fold_left (fun st value => change value st) values s in
  cityName s' = last values (cityName s)
  /\ cityFacts s' = cityFacts s
  /\ error s' = error s
  /\ isLoading s' = isLoading s.
Proof.
  revert s. induction values as [|x rest IH]; intros s.
  - simpl. auto.
  - cbn [fold_left]. specialize (IH (change x s)).
    destruct IH as (Hn & Hf & He & Hl). cbv zeta.
    repeat split; try assumption.
    rewrite Hn. destruct rest as [|y rest]; [reflexivity|].
    change (last (x :: y :: rest) (cityName s)) with (last (y :: rest) (cityName s)).
    apply last_cons_default.
Qed.

(** ** The shape of every submit *)

(** [finally] appends its block to whatever the body did and keeps the
    body's exit. *)
Lemma run_finally {A : Type} (b : js A) (u : setter) :
  forall (net : network) (h : list request),
    run net h (finally b (Upd u (Ret tt)))
    = (fst (run net h b) ++ [EvSet u], snd (run net h b)).
Proof.
  induction b as [a|e|w k IH|r k IH]; intros net h.
  - reflexivity.
  - reflexivity.
  - simpl. rewrite IH. destruct (run net h k). reflexivity.
  - simpl. rewrite IH. destruct (run net (h ++ [r]) (k (net h r))). reflexivity.
Qed.

Lemma calm_settles {A : Type} (c : js A) : calm c -> settles c.
Proof.
  induction c as [a|e|w k IH|r k IH]; simpl; auto.
  destruct w; try contradiction. exact IH.
Qed.

Lemma calm_bind {A B : Type} (m : js A) (f : A -> js B) :
  calm m -> (forall a, calm (f a)) -> calm (bind m f).
Proof.
  intros Hm Hf. induction m as [a|e|w k IH|r k IH]; simpl in *; auto.
  destruct w; try contradiction. auto.
Qed.

Lemma settles_bind {A B : Type} (m : js A) (f : A -> js B) :
  calm m -> (forall a, settles (f a)) -> settles (bind m f).
Proof.
  intros Hm Hf. induction m as [a|e|w k IH|r k IH]; simpl in *; auto.
  destruct w; try contradiction. auto.
Qed.

Lemma settles_try_catch {A : Type} (b : js A) (handler : jsval -> js A) :
  settles b -> (forall e, settles (handler e)) -> settles (try_catch b handler).
Proof.
  intros Hb Hh. induction b as [a|e|w k IH|r k IH]; simpl in *; auto.
  destruct w; try contradiction.
  - auto.
  - destruct k; try contradiction. exact I.
Qed.

Lemma calm_get_prop (k : string) (x : jsval) : calm (get_prop k x).
Proof.
  destruct x; simpl; try exact I. destruct (lookup (lit k) fields); exact I.
Qed.

Lemma calm_error_detail (err : jsval) : calm (error_detail err).
Proof.
  unfold error_detail.
  apply calm_bind; [apply calm_get_prop|]. intros response.
  destruct (nullish response); [exact I|].
  apply calm_bind; [apply calm_get_prop|]. intros data.
  destruct (nullish data); [exact I|]. apply calm_get_prop.
Qed.

Lemma calm_axios_settle (a : http_reply) : calm (axios_settle a).
Proof.
  destruct a as [|status b]; simpl; [exact I|]. destruct (is_2xx status); exact I.
Qed.

Lemma calm_json (r : fetch_response) : calm (json r).
Proof.
  unfold json. destruct (resp_body r); exact I.
Qed.

(** The [catch] block of both handlers. *)
Lemma settles_on_error (err : jsval) :
  settles (detail <- error_detail err ;; setError (or_else detail msg_failed)).
Proof.
  apply settles_bind; [apply calm_error_detail|]. intros d. exact I.
Qed.

(** What a program of that shape does: requests and updates of
    [cityFacts], then at most one update of [error]. *)
Lemma settles_trace {A : Type} (c : js A) :
  settles c ->
  forall (net : network) (h : list request),
  exists body tail,
    fst (run net h c) = body ++ tail
    /\ Forall quiet body
    /\ (tail = [] \/ exists e, tail = [EvSet (SetError e)]).
Proof.
  induction c as [a|e|w k IH|r k IH]; intros Hc net h.
  - exists [], []. simpl. auto.
  - exists [], []. simpl. auto.
  - destruct w as [x|x|x|x]; simpl in Hc; try contradiction.
    + destruct (IH Hc net h) as (body & tail & E & Hq & Ht).
      exists (EvSet (SetCityFacts x) :: body), tail.
      simpl. destruct (run net h k) as [tr res]. simpl in *. subst tr.
      split; [reflexivity|]. split; [constructor; [exact I|exact Hq]|exact Ht].
    + destruct k; try contradiction.
      exists [], [EvSet (SetError x)]. simpl. eauto.
  - simpl in Hc.
    destruct (IH (net h r) (Hc (net h r)) net (h ++ [r])) as (body & tail & E & Hq & Ht).
    exists (EvReq r (net h r) :: body), tail.
    simpl. destruct (run net (h ++ [r]) (k (net h r))) as [tr res]. simpl in *. subst tr.
    split; [reflexivity|]. split; [constructor; [exact I|exact Hq]|exact Ht].
Qed.

(** Past the validation, both handlers set the flag, clear the error, call
    [GET /city/{name}], and go on with a program of the shape above whose
    exit is followed by [setIsLoading(false)]. *)
Lemma handleSubmit_nonblank (v : version) (n : jsstring) :
  trim n <> [] ->
  exists k : http_reply -> js unit,
    (forall a, settles (k a))
    /\ handleSubmit v n
       = Upd (SetIsLoading true) (Upd (SetError (JStr []))
           (Await (Get (city_url v n)) (fun a => finally (k a) (setIsLoading false)))).
Proof.
  intros Hn.
  assert (Hb : negb (truthy (JStr (trim n))) = false).
  { simpl. destruct (trim n); [contradiction|reflexivity]. }
  destruct v; unfold handleSubmit, handleSubmit_fetch, handleSubmit_axios; rewrite Hb;
    eexists; (split; [|reflexivity]); intros a; cbv beta.
  - apply settles_try_catch; [|apply settles_on_error].
    destruct a as [|status b]; [exact I|]. cbn [bind].
    destruct (ok (mkResponse status b)); [|exact I].
    apply settles_bind; [apply calm_json|]. intros data.
    apply settles_bind; [apply calm_get_prop|]. intros facts. exact I.
  - apply settles_try_catch; [|apply settles_on_error].
    apply settles_bind; [apply calm_axios_settle|]. intros response.
    apply settles_bind; [apply calm_get_prop|]. intros data.
    apply settles_bind; [apply calm_get_prop|]. intros facts.
    destruct (truthy facts); [exact I|].
    apply calm_settles.
    apply calm_bind; [intros r; apply calm_axios_settle|]. intros gresponse.
    apply calm_bind; [apply calm_get_prop|]. intros gdata.
    apply calm_bind; [apply calm_get_prop|]. intros gfacts.
    apply calm_bind; [exact I|]. intros _.
    apply calm_bind; [intros r; apply calm_axios_settle|]. intros _. exact I.
Qed.

Lemma submit_trace (v : version) (net : network) (s : state) :
  trim (cityName s) <> [] ->
  exists a body tail,
    trace_of v net s
    = EvSet (SetIsLoading true) :: EvSet (SetError (JStr []))
        :: EvReq (Get (city_url v (cityName s))) a
        :: body ++ tail ++ [EvSet (SetIsLoading false)]
    /\ Forall quiet body
    /\ (tail = [] \/ exists e, tail = [EvSet (SetError e)]).
Proof.
  intros Hn. unfold trace_of.
  destruct (handleSubmit_nonblank v _ Hn) as (k & Hk & E). rewrite E.
  set (q := Get (city_url v (cityName s))).
  destruct (settles_trace (k (net [] q)) (Hk _) net ([] ++ [q])) as (body & tail & Et & Hq & Ht).
  exists (net [] q), body, tail.
  split; [|split; assumption].
  cbn [run]. unfold setIsLoading. rewrite run_finally. rewrite Et.
  cbn [fst]. rewrite <- app_assoc. reflexivity.
Qed.

Lemma apply_trace_app (s : state) (a b : list event) :
  apply_trace s (a ++ b) = apply_trace (apply_trace s a) b.
Proof.
  apply fold_left_app.
Qed.

Lemma submit_not_loading (v : version) (net : network) (s : state) :
  trim (cityName s) <> [] -> isLoading (submit v net s) = false.
Proof.
  intros Hn. destruct (submit_trace v net s Hn) as (a & body & tail & E & _).
  unfold submit. rewrite E.
  change (EvSet (SetIsLoading true) :: EvSet (SetError (JStr []))
            :: EvReq (Get (city_url v (cityName s))) a
            :: body ++ tail ++ [EvSet (SetIsLoading false)])
    with ((EvSet (SetIsLoading true) :: EvSet (SetError (JStr []))
            :: EvReq (Get (city_url v (cityName s))) a :: body)
            ++ tail ++ [EvSet (SetIsLoading false)]).
  rewrite app_assoc, apply_trace_app. reflexivity.
Qed.

Lemma submit_blank_state (v : version) (net : network) (s : state) :
  trim (cityName s) = [] -> submit v net s = apply_setter s (SetError msg_empty).
Proof.
  intros H. unfold submit, trace_of. rewrite (handleSubmit_blank v _ H). reflexivity.
Qed.

(** No operation leaves the flag on when it found it off. *)
Lemma step_not_loading (v : version) (s : state) (o : op) :
  isLoading s = false -> isLoading (step v s o) = false.
Proof.
  intros H. destruct o as [value|net].
  - exact H.
  - change (step v s (Submit net)) with (submit v net s).
    destruct (trim (cityName s)) as [|c r] eqn:E.
    + rewrite (submit_blank_state v net s E). exact H.
    + apply submit_not_loading. rewrite E. discriminate.
Qed.

(** Whatever the user did since the page was opened, once the last
    operation has settled the form is not loading. *)
Lemma settled_not_loading (v : version) (ops : list op) :
  isLoading (fold_left (step v) ops initial) = false.
Proof.
  assert (G : forall s, isLoading s = false -> isLoading (fold_left (step v) ops s) = false).
  { induction ops as [|o rest IH]; intros s H.
    - exact H.
    - simpl. apply IH. apply step_not_loading. exact H. }
  apply G. reflexivity.
Qed.

(** ** The loading flag *)

Lemma apply_trace_keeps_loading (tr : list event) :
  forall s : state,
    (forall b, ~ In (EvSet (SetIsLoading b)) tr) ->
    isLoading (apply_trace s tr) = isLoading s.
Proof.
  induction tr as [|e rest IH]; intros s H.
  - reflexivity.
  - change (apply_trace s (e :: rest)) with (apply_trace (apply_event s e) rest).
    rewrite IH.
    + destruct e as [u|r a]; [|reflexivity].
      destruct u; try reflexivity. exfalso. apply (H b). left. reflexivity.
    + intros b Hb. apply (H b). right. exact Hb.
Qed.

(** C2.  A submit of a city name that does not trim to the empty string
    first sets [isLoading] to [true] and last sets it to [false], and does
    not touch it in between; this holds for every backend, so for a
    success, a status outside 2xx, a network error and a body that does not
    parse alike.  The flag is [false] once the submit has settled. *)
Theorem loading_released (v : version) (net : network) (s : state) :
  trim (cityName s) <> [] ->
  exists mid,
    trace_of v net s
    = EvSet (SetIsLoading true) :: mid ++ [EvSet (SetIsLoading false)]
    /\ (forall b, ~ In (EvSet (SetIsLoading b)) mid)
    /\ (forall pre post, mid = pre ++ post ->
        isLoading (apply_trace s (EvSet (SetIsLoading true) :: pre)) = true)
    /\ isLoading (submit v net s) = false.
Proof.
  intros Hn. destruct (submit_trace v net s Hn) as (a & body & tail & E & Hq & Ht).
  set (mid := EvSet (SetError (JStr [])) :: EvReq (Get (city_url v (cityName s))) a
                :: body ++ tail).
  assert (Hmid : forall b, ~ In (EvSet (SetIsLoading b)) mid).
  { intros b [H|[H|H]]; try discriminate.
    apply in_app_or in H. destruct H as [H|H].
    - rewrite Forall_forall in Hq. apply Hq in H. exact H.
    - destruct Ht as [->|[e ->]]; simpl in H; [contradiction|].
      destruct H as [H|[]]. discriminate. }
  exists mid. split; [|split; [|split]].
  - rewrite E. simpl. rewrite <- app_assoc. reflexivity.
  - exact Hmid.
  - intros pre post Em.
    change (EvSet (SetIsLoading true) :: pre) with ([EvSet (SetIsLoading true)] ++ pre).
    rewrite apply_trace_app, apply_trace_keeps_loading; [reflexivity|].
    intros b Hb. apply (Hmid b). rewrite Em. apply in_or_app. left. exact Hb.
  - apply submit_not_loading. exact Hn.
Qed.

Lemma loading_released_witness :
  isLoading (submit AxiosVersion offline paris_state) = false.
Proof.
  destruct (loading_released AxiosVersion offline paris_state) as (mid & _ & _ & _ & H).
  - vm_compute. discriminate.
  - exact H.
Defined.

(** ** Errors and the loading flag *)

Lemma quiet_no_alarm (e : event) : quiet e -> no_alarm e.
Proof.
  destruct e as [u|r a]; [|intros; exact I].
  destruct u; simpl; try contradiction. intros; exact I.
Qed.

Lemma no_alarm_elt (l pre post : list event) (x : event) :
  Forall no_alarm l -> l = pre ++ x :: post -> no_alarm x.
Proof.
  intros H E. rewrite Forall_forall in H. apply H. rewrite E. apply in_elt.
Qed.

(** The one alarm of a trace sits where it sits. *)
Lemma alarm_position (pre : list event) :
  forall (a b post : list event) (x y : event),
    pre ++ x :: post = a ++ y :: b ->
    Forall no_alarm a -> Forall no_alarm b -> ~ no_alarm x ->
    pre = a /\ x = y /\ post = b.
Proof.
  induction pre as [|p pre IH]; intros a b post x y E Ha Hb Hx.
  - destruct a as [|c a]; simpl in E.
    + inversion E. auto.
    + inversion E. subst. inversion Ha. contradiction.
  - destruct a as [|c a]; simpl in E.
    + inversion E. subst. exfalso. apply Hx.
      eapply no_alarm_elt; [exact Hb|reflexivity].
    + inversion E. subst. inversion Ha. subst.
      destruct (IH a b post x y H1 H3 Hb Hx) as (-> & -> & ->). auto.
Qed.

(** C6.  Take any operation: an edit of the input, or a submit in either
    version against any backend.  Whenever it sets [error] to a truthy
    value, either that is all the operation does (the validation path, in
    which loading never starts), or the very next and last thing it does is
    [setIsLoading(false)], a request having been made since loading began.
    And no operation that finds [isLoading] off leaves it on. *)
Theorem error_outside_loading (v : version) (s : state) (o : op) :
  (forall pre e post,
      op_trace v s o = pre ++ EvSet (SetError e) :: post ->
      truthy e = true ->
      (pre = [] /\ post = [])
      \/ (post = [EvSet (SetIsLoading false)]
          /\ exists r a before, pre = EvSet (SetIsLoading true) :: before
                               /\ In (EvReq r a) before))
  /\ (isLoading s = false -> isLoading (step v s o) = false).
Proof.
  split; [|apply step_not_loading].
  intros pre e post E He.
  assert (Hx : ~ no_alarm (EvSet (SetError e))).
  { simpl. rewrite He. discriminate. }
  destruct o as [value|net]; simpl in E.
  - destruct pre as [|p pre]; [discriminate|].
    inversion E. destruct pre; discriminate.
  - destruct (trim (cityName s)) as [|c r] eqn:Et.
    + left. unfold trace_of in E. rewrite (handleSubmit_blank v _ Et) in E. simpl in E.
      destruct pre as [|p pre].
      * inversion E. auto.
      * inversion E. destruct pre; discriminate.
    + right.
      destruct (submit_trace v net s) as (a & body & tail & Es & Hq & Ht).
      { rewrite Et. discriminate. }
      rewrite Es in E.
      assert (Hpre : Forall no_alarm
                (EvSet (SetIsLoading true) :: EvSet (SetError (JStr []))
                   :: EvReq (Get (city_url v (cityName s))) a :: body)).
      { repeat constructor. eapply Forall_impl; [|exact Hq]. apply quiet_no_alarm. }
      destruct Ht as [->|[e' ->]].
      * exfalso. apply Hx. eapply no_alarm_elt; [|exact E].
        simpl. repeat constructor.
        apply Forall_app. split; [|repeat constructor].
        eapply Forall_impl; [|exact Hq]. apply quiet_no_alarm.
      * change (EvSet (SetIsLoading true) :: EvSet (SetError (JStr []))
                  :: EvReq (Get (city_url v (cityName s))) a
                  :: body ++ [EvSet (SetError e')] ++ [EvSet (SetIsLoading false)])
          with ((EvSet (SetIsLoading true) :: EvSet (SetError (JStr []))
                  :: EvReq (Get (city_url v (cityName s))) a :: body)
                  ++ EvSet (SetError e') :: [EvSet (SetIsLoading false)]) in E.
        symmetry in E.
        destruct (alarm_position _ _ _ _ _ _ E Hpre) as (-> & _ & ->); auto.
        { repeat constructor. }
        split; [reflexivity|].
        eexists _, _, _. split; [reflexivity|]. right. left. reflexivity.
Qed.

Lemma error_outside_loading_witness :
  exists r a,
    In (EvReq r a)
       [EvSet (SetError (JStr []));
        EvReq (Get (city_url FetchVersion (lit "Paris"))) (Http 500 (BodyText []))].
Proof.
  destruct (proj1 (error_outside_loading FetchVersion paris_state
                     (Submit (fun _ _ => Http 500 (BodyText []))))
              [EvSet (SetIsLoading true); EvSet (SetError (JStr []));
               EvReq (Get (city_url FetchVersion (lit "Paris"))) (Http 500 (BodyText []))]
              msg_wrong
              [EvSet (SetIsLoading false)])
    as [[H _]|[_ (r & a & before & E & H)]].
  - vm_compute. reflexivity.
  - vm_compute. reflexivity.
  - discriminate H.
  - inversion E. subst before. exists r, a. exact H.
Defined.

(** ** Single runs *)

Lemma nonblank_test (n : jsstring) :
  trim n <> [] -> negb (truthy (JStr (trim n))) = false.
Proof.
  intros H. simpl. destruct (trim n); [contradiction|reflexivity].
Qed.

Lemma get_prop_data (status : Z) (b : body) :
  get_prop "data" (axios_response status b) = Ret (axios_data b).
Proof.
  reflexivity.
Qed.

Lemma get_prop_fields (k : string) (fields : list (jsstring * jsval)) :
  get_prop k (JObj fields) = Ret (field_or_undefined k fields).
Proof.
  unfold get_prop, field_or_undefined. destruct (lookup (lit k) fields); reflexivity.
Qed.

(** What the [catch] block reads off the error of a rejected [axios]
    call that carries a response. *)
Lemma error_detail_response (status : Z) (b : body) :
  error_detail (axios_error (Some (axios_response status b))) = Ret (payload_detail b).
Proof.
  destruct b as [data|t]; [|reflexivity].
  destruct data; try reflexivity.
  change (get_prop "detail" (JObj fields) = Ret (field_or_undefined "detail" fields)).
  apply get_prop_fields.
Qed.

(** A 2xx answer to the [fetch] version whose body is a JSON object. *)
Lemma fetch_hit (net : network) (s : state) (status : Z) (fields : list (jsstring * jsval)) :
  trim (cityName s) <> [] ->
  net [] (Get (city_url FetchVersion (cityName s))) = Http status (BodyJson (JObj fields)) ->
  is_2xx status = true ->
  trace_of FetchVersion net s
  = [EvSet (SetIsLoading true); EvSet (SetError (JStr []));
     EvReq (Get (city_url FetchVersion (cityName s))) (Http status (BodyJson (JObj fields)));
     EvSet (SetCityFacts (field_or_undefined "facts" fields));
     EvSet (SetIsLoading false)].
Proof.
  intros Hn H Hs. unfold trace_of. eval_handler. unfold handleSubmit_fetch.
  rewrite (nonblank_test _ Hn). eval_handler. fold_urls s. rewrite H.
  eval_handler. unfold ok. cbn [resp_status]. rewrite Hs.
  rewrite get_prop_fields. reflexivity.
Qed.

(** A 2xx answer to the [axios] version whose body is a JSON object with
    truthy facts. *)
Lemma axios_hit (net : network) (s : state) (status : Z) (fields : list (jsstring * jsval)) :
  trim (cityName s) <> [] ->
  net [] (Get (city_url AxiosVersion (cityName s))) = Http status (BodyJson (JObj fields)) ->
  is_2xx status = true ->
  truthy (field_or_undefined "facts" fields) = true ->
  trace_of AxiosVersion net s
  = [EvSet (SetIsLoading true); EvSet (SetError (JStr []));
     EvReq (Get (city_url AxiosVersion (cityName s))) (Http status (BodyJson (JObj fields)));
     EvSet (SetCityFacts (field_or_undefined "facts" fields));
     EvSet (SetIsLoading false)].
Proof.
  intros Hn H Hs Ht. unfold trace_of. eval_handler. unfold handleSubmit_axios.
  rewrite (nonblank_test _ Hn). eval_handler. fold_urls s. rewrite H.
  eval_handler. rewrite Hs. eval_handler. rewrite get_prop_data. eval_handler.
  cbn [axios_data]. rewrite get_prop_fields. eval_handler. rewrite Ht. reflexivity.
Qed.

(** A 2xx answer to the [fetch] version whose body is the JSON [null]:
    reading [facts] off it throws, and the [catch] block reports it. *)
Lemma fetch_null_body (net : network) (s : state) (status : Z) :
  trim (cityName s) <> [] ->
  net [] (Get (city_url FetchVersion (cityName s))) = Http status (BodyJson JNull) ->
  is_2xx status = true ->
  trace_of FetchVersion net s
  = [EvSet (SetIsLoading true); EvSet (SetError (JStr []));
     EvReq (Get (city_url FetchVersion (cityName s))) (Http status (BodyJson JNull));
     EvSet (SetError msg_failed);
     EvSet (SetIsLoading false)].
Proof.
  intros Hn H Hs. unfold trace_of. eval_handler. unfold handleSubmit_fetch.
  rewrite (nonblank_test _ Hn). eval_handler. fold_urls s. rewrite H.
  eval_handler. unfold ok. cbn [resp_status]. rewrite Hs. reflexivity.
Qed.

(** An answer outside 2xx, in either version. *)
Lemma bad_status (v : version) (net : network) (s : state) (status : Z) (b : body) :
  trim (cityName s) <> [] ->
  net [] (Get (city_url v (cityName s))) = Http status b ->
  is_2xx status = false ->
  trace_of v net s
  = [EvSet (SetIsLoading true); EvSet (SetError (JStr []));
     EvReq (Get (city_url v (cityName s))) (Http status b);
     EvSet (SetError match v with
                     | FetchVersion => msg_wrong
                     | AxiosVersion => or_else (payload_detail b) msg_failed
                     end);
     EvSet (SetIsLoading false)].
Proof.
  intros Hn H Hs. unfold trace_of. destruct v; eval_handler.
  - unfold handleSubmit_fetch.
    rewrite (nonblank_test _ Hn). eval_handler. fold_urls s. rewrite H.
    eval_handler. unfold ok. cbn [resp_status]. rewrite Hs. reflexivity.
  - unfold handleSubmit_axios.
    rewrite (nonblank_test _ Hn). eval_handler. fold_urls s. rewrite H.
    eval_handler. rewrite Hs. eval_handler. rewrite error_detail_response. reflexivity.
Qed.

(** The [axios] version when the first answer has no truthy facts and the
    generation endpoint answers with a JSON object: the generated facts are
    set, then posted; a rejected [POST] ends in the [catch] block. *)
Lemma axios_generate (net : network) (s : state) (st1 st2 : Z)
  (fields gfields : list (jsstring * jsval)) :
  let n := cityName s in
  let g := field_or_undefined "facts" gfields in
  let save := Post save_url (save_payload n g) in
  let a := net [Get (city_url AxiosVersion n); Get (gemini_url n)] save in
  trim n <> [] ->
  net [] (Get (city_url AxiosVersion n)) = Http st1 (BodyJson (JObj fields)) ->
  is_2xx st1 = true ->
  truthy (field_or_undefined "facts" fields) = false ->
  net [Get (city_url AxiosVersion n)] (Get (gemini_url n)) = Http st2 (BodyJson (JObj gfields)) ->
  is_2xx st2 = true ->
  trace_of AxiosVersion net s
  = [EvSet (SetIsLoading true); EvSet (SetError (JStr []));
     EvReq (Get (city_url AxiosVersion n)) (Http st1 (BodyJson (JObj fields)));
     EvReq (Get (gemini_url n)) (Http st2 (BodyJson (JObj gfields)));
     EvSet (SetCityFacts g);
     EvReq save a]
    ++ match a with
       | NetworkError => [EvSet (SetError msg_failed)]
       | Http st3 b3 =>
           if is_2xx st3 then []
           else [EvSet (SetError (or_else (payload_detail b3) msg_failed))]
       end
    ++ [EvSet (SetIsLoading false)].
Proof.
  intros n g save a Hn H1 Hs1 Hf H2 Hs2. subst a save g n.
  unfold trace_of. eval_handler. unfold handleSubmit_axios.
  rewrite (nonblank_test _ Hn). eval_handler. fold_urls s. rewrite H1.
  eval_handler. rewrite Hs1. eval_handler. rewrite get_prop_data. eval_handler.
  cbn [axios_data]. rewrite get_prop_fields. eval_handler. rewrite Hf.
  eval_handler. cbn [app]. rewrite H2.
  eval_handler. rewrite Hs2. eval_handler. rewrite get_prop_data. eval_handler.
  cbn [axios_data]. rewrite get_prop_fields. eval_handler. cbn [app].
  change (JObj [(lit "name", JStr (cityName s));
                (lit "facts", field_or_undefined "facts" gfields)])
    with (save_payload (cityName s) (field_or_undefined "facts" gfields)).
  destruct (net [Get (city_url AxiosVersion (cityName s)); Get (gemini_url (cityName s))]
              (Post save_url (save_payload (cityName s) (field_or_undefined "facts" gfields))))
    as [|st3 b3].
  - reflexivity.
  - eval_handler. destruct (is_2xx st3).
    + reflexivity.
    + eval_handler. rewrite error_detail_response. reflexivity.
Qed.

(** ** Reading the rendered tree *)

Lemma by_class_fact_lines (c : string) (ls : list jsstring) :
  String.eqb "fact-line" c = false ->
  forall i, flat_map (by_class c) (map_index fact_line i ls) = [].
Proof.
  intros Hc. induction ls as [|l rest IH]; intros i.
  - reflexivity.
  - cbn [map_index flat_map]. rewrite IH.
    unfold fact_line. cbn [by_class className flat_map app]. rewrite Hc. reflexivity.
Qed.

Lemma by_tag_fact_lines (g : string) (ls : list jsstring) :
  String.eqb "p" g = false ->
  forall i, flat_map (by_tag g) (map_index fact_line i ls) = [].
Proof.
  intros Hg. induction ls as [|l rest IH]; intros i.
  - reflexivity.
  - cbn [map_index flat_map]. rewrite IH.
    unfold fact_line. cbn [by_tag flat_map app]. rewrite Hg. reflexivity.
Qed.

Lemma by_class_facts_body (c : string) (facts : jsval) (fb : vnode) :
  facts_body facts = Some fb ->
  String.eqb "fact-line" c = false ->
  String.eqb "placeholder-text" c = false ->
  by_class c fb = [].
Proof.
  unfold facts_body. intros E H1 H2. destruct (truthy facts).
  - destruct facts; try discriminate. inversion E.
    cbn [by_class]. apply by_class_fact_lines. exact H1.
  - inversion E. unfold placeholder_text. cbn [by_class className cls flat_map app].
    rewrite H2. reflexivity.
Qed.

Lemma by_tag_facts_body (g : string) (facts : jsval) (fb : vnode) :
  facts_body facts = Some fb ->
  String.eqb "p" g = false ->
  by_tag g fb = [].
Proof.
  unfold facts_body. intros E H1. destruct (truthy facts).
  - destruct facts; try discriminate. inversion E.
    cbn [by_tag]. apply by_tag_fact_lines. exact H1.
  - inversion E. unfold placeholder_text. cbn [by_tag flat_map app].
    rewrite H1. reflexivity.
Qed.

Lemma by_class_banner (c : string) (err : jsval) :
  String.eqb "error-message" c = false -> by_class c (error_banner err) = [].
Proof.
  intros H. unfold error_banner. destruct (truthy err); [|reflexivity].
  cbn [by_class className cls flat_map app]. rewrite H. reflexivity.
Qed.

Lemma by_tag_banner (g : string) (err : jsval) :
  String.eqb "div" g = false -> by_tag g (error_banner err) = [].
Proof.
  intros H. unfold error_banner. destruct (truthy err); [|reflexivity].
  cbn [by_tag flat_map app]. rewrite H. reflexivity.
Qed.

(** The [facts-textarea] element holds the facts body and nothing else. *)
Lemma rendered_textarea (s : state) :
  rendered "facts-textarea" s
  = option_map (fun fb => [Elem "div" (cls "facts-textarea") [fb]]) (facts_body (cityFacts s)).
Proof.
  unfold rendered, App. destruct (facts_body (cityFacts s)) as [fb|] eqn:E; [|reflexivity].
  cbn [option_map]. f_equal. cbn [by_class flat_map].
  rewrite (by_class_banner "facts-textarea"),
    (by_class_facts_body "facts-textarea" _ _ E) by reflexivity.
  clear E. destruct s as [n f [|] e]; reflexivity.
Qed.

Lemma rendered_title (s : state) :
  rendered "facts-title" s
  = option_map (fun _ => [facts_title s]) (facts_body (cityFacts s)).
Proof.
  unfold rendered, App. destruct (facts_body (cityFacts s)) as [fb|] eqn:E; [|reflexivity].
  cbn [option_map]. f_equal. cbn [by_class flat_map].
  rewrite (by_class_banner "facts-title"),
    (by_class_facts_body "facts-title" _ _ E) by reflexivity.
  clear E. destruct s as [n f [|] e]; reflexivity.
Qed.

(** The form has one [input] and one [button]. *)
Lemma rendered_controls (s : state) (t : vnode) :
  App s = Some t ->
  by_tag "input" t = [search_input s] /\ by_tag "button" t = [search_button s].
Proof.
  unfold App. destruct (facts_body (cityFacts s)) as [fb|] eqn:E; [|discriminate].
  intros H. inversion H. subst t. clear H. cbn [by_tag flat_map].
  rewrite (by_tag_banner "input"), (by_tag_banner "button"),
    (by_tag_facts_body "input" _ _ E), (by_tag_facts_body "button" _ _ E) by reflexivity.
  clear E. split; destruct s as [n f [|] e]; reflexivity.
Qed.

Lemma facts_body_string (f : jsstring) :
  f <> [] -> facts_body (JStr f) = Some (Array (map_index fact_line 0 (split_nl f))).
Proof.
  intros H. destruct f; [contradiction|reflexivity].
Qed.

Lemma facts_body_falsy (x : jsval) :
  truthy x = false -> facts_body x = Some placeholder_text.
Proof.
  intros H. unfold facts_body. rewrite H. reflexivity.
Qed.

(** ** Splitting into lines *)

Lemma split_nl_nonempty (s : jsstring) : split_nl s <> [].
Proof.
  destruct s as [|c r]; simpl.
  - discriminate.
  - destruct (N.eqb c newline); [discriminate|].
    destruct (split_nl r); discriminate.
Qed.

(** Joining the pieces with line feeds gives the string back. *)
Lemma join_split (s : jsstring) : join_nl (split_nl s) = s.
Proof.
  induction s as [|c r IH]; [reflexivity|].
  cbn [split_nl]. destruct (N.eqb c newline) eqn:E.
  - apply N.eqb_eq in E. subst c.
    destruct (split_nl r) as [|h t] eqn:Er.
    + exfalso. exact (split_nl_nonempty r Er).
    + change (join_nl ([] :: h :: t)) with (newline :: join_nl (h :: t)).
      rewrite IH. reflexivity.
  - destruct (split_nl r) as [|h t] eqn:Er.
    + exfalso. exact (split_nl_nonempty r Er).
    + rewrite <- IH. destruct t; reflexivity.
Qed.

(** No piece holds a line feed. *)
Lemma split_no_newline (s : jsstring) :
  Forall (fun line => ~ In newline line) (split_nl s).
Proof.
  induction s as [|c r IH].
  - repeat constructor. intros [].
  - cbn [split_nl]. destruct (N.eqb c newline) eqn:E.
    + constructor; [intros []|exact IH].
    + destruct (split_nl r) as [|h t].
      * repeat constructor. intros [H|[]]. subst c. rewrite N.eqb_refl in E. discriminate.
      * inversion IH. subst. constructor; [|assumption].
        intros [H|H]; [|contradiction].
        subst c. rewrite N.eqb_refl in E. discriminate.
Qed.

Lemma split_piece (p : jsstring) :
  ~ In newline p -> split_nl p = [p].
Proof.
  induction p as [|c r IH]; intros H; [reflexivity|].
  cbn [split_nl]. destruct (N.eqb c newline) eqn:E.
  - apply N.eqb_eq in E. exfalso. apply H. left. exact E.
  - rewrite IH; [reflexivity|]. intros G. apply H. right. exact G.
Qed.

Lemma split_app_piece (p rest : jsstring) :
  ~ In newline p -> split_nl (p ++ newline :: rest) = p :: split_nl rest.
Proof.
  induction p as [|c r IH]; intros H.
  - reflexivity.
  - cbn [app split_nl]. destruct (N.eqb c newline) eqn:E.
    + apply N.eqb_eq in E. exfalso. apply H. left. exact E.
    + rewrite IH; [reflexivity|]. intros G. apply H. right. exact G.
Qed.

(** The split is the only way to cut a string into pieces without line
    feeds that join back to it. *)
Lemma split_unique (ls : list jsstring) (s : jsstring) :
  ls <> [] ->
  Forall (fun line => ~ In newline line) ls ->
  join_nl ls = s ->
  ls = split_nl s.
Proof.
  intros Hne Hall <-. induction ls as [|p rest IH].
  - contradiction.
  - inversion Hall as [|? ? Hp Hrest]. subst.
    destruct rest as [|q rest'].
    + symmetry. apply split_piece. exact Hp.
    + change (join_nl (p :: q :: rest')) with (p ++ newline :: join_nl (q :: rest')).
      rewrite split_app_piece by exact Hp. f_equal.
      apply IH; [discriminate|exact Hrest].
Qed.

(** ** A successful answer *)

Lemma hit_state (v : version) (net : network) (s : state) (status : Z)
  (fields : list (jsstring * jsval)) :
  trim (cityName s) <> [] ->
  net [] (Get (city_url v (cityName s))) = Http status (BodyJson (JObj fields)) ->
  is_2xx status = true ->
  truthy (field_or_undefined "facts" fields) = true ->
  submit v net s
  = {| cityName := cityName s; cityFacts := field_or_undefined "facts" fields;
       isLoading := false; error := JStr [] |}.
Proof.
  intros Hn H Hs Ht. unfold submit. destruct v.
  - rewrite (fetch_hit net s status fields Hn H Hs). reflexivity.
  - rewrite (axios_hit net s status fields Hn H Hs Ht). reflexivity.
Qed.


Lemma map_index_nth {A B : Type} (f : A -> nat -> B) (l : list A) :
  forall k i,
    nth_error (map_index f k l) i = option_map (fun x => f x (k + i)) (nth_error l i).
Proof.
  induction l as [|x r IH]; intros k i.
  - destruct i; reflexivity.
  - destruct i as [|i]; cbn [map_index nth_error option_map].
    + rewrite Nat.add_0_r. reflexivity.
    + rewrite IH. rewrite Nat.add_succ_r. reflexivity.
Qed.

(** The separator of the split is the line feed, code unit 10. *)
Lemma join_nl_with (ls : list jsstring) : join_nl ls = join_with 10 ls.
Proof.
  induction ls as [|p rest IH]; [reflexivity|].
  destruct rest as [|q rest']; [reflexivity|].
  change (p ++ newline :: join_nl (q :: rest') = p ++ 10%N :: join_with 10 (q :: rest')).
  rewrite IH. reflexivity.
Qed.

(** C3.  When [GET /city/{name}] is answered 2xx with a JSON object whose
    [facts] is a non-empty string [f], the submit (of either version)
    stores [f].  The one [facts-textarea] element of the tree then holds an
    array with one paragraph per line of [f] and nothing else: its element
    number [i], counted from zero, is a [p] of class [fact-line] with key
    [i] whose only child is the text of line number [i], and past the last
    line there is no element.  So it is in every state whose facts are [f].
    The lines of [f] are what lies between its line feeds (code unit 10):
    no line holds a line feed, the lines joined by line feeds give [f], and
    no other list of pieces does. *)
Theorem facts_by_line (v : version) (net : network) (s : state) (status : Z)
  (fields : list (jsstring * jsval)) (f : jsstring) :
  trim (cityName s) <> [] ->
  net [] (Get (city_url v (cityName s))) = Http status (BodyJson (JObj fields)) ->
  is_2xx status = true ->
  lookup (lit "facts") fields = Some (JStr f) ->
  f <> [] ->
  cityFacts (submit v net s) = JStr f
  /\ (exists ps,
        rendered "facts-textarea" (submit v net s)
        = Some [Elem "div"
                  {| className := "facts-textarea"; type_ := None; value := None;
                     placeholder := None; disabled := None; key := None |}
                  [Array ps]]
        /\ forall i,
             nth_error ps i
             = option_map
                 (fun line =>
                    Elem "p"
                      {| className := "fact-line"; type_ := None; value := None;
                         placeholder := None; disabled := None; key := Some i |}
                      [Text line])
                 (nth_error (split_nl f) i))
  /\ (forall s', cityFacts s' = JStr f ->
      exists ps,
        rendered "facts-textarea" s'
        = Some [Elem "div"
                  {| className := "facts-textarea"; type_ := None; value := None;
                     placeholder := None; disabled := None; key := None |}
                  [Array ps]]
        /\ forall i,
             nth_error ps i
             = option_map
                 (fun line =>
                    Elem "p"
                      {| className := "fact-line"; type_ := None; value := None;
                         placeholder := None; disabled := None; key := Some i |}
                      [Text line])
                 (nth_error (split_nl f) i))
  /\ join_with 10 (split_nl f) = f
  /\ Forall (fun line => ~ In 10%N line) (split_nl f)
  /\ (forall ls, ls <> [] -> Forall (fun line => ~ In 10%N line) ls ->
      join_with 10 ls = f -> ls = split_nl f).
Proof.
  intros Hn H Hs Hl Hf.
  assert (Hx : field_or_undefined "facts" fields = JStr f).
  { unfold field_or_undefined. rewrite Hl. reflexivity. }
  assert (Ht : truthy (field_or_undefined "facts" fields) = true).
  { rewrite Hx. destruct f; [contradiction|reflexivity]. }
  assert (Hr : forall s', cityFacts s' = JStr f ->
      exists ps,
        rendered "facts-textarea" s'
        = Some [Elem "div"
                  {| className := "facts-textarea"; type_ := None; value := None;
                     placeholder := None; disabled := None; key := None |}
                  [Array ps]]
        /\ forall i,
             nth_error ps i
             = option_map
                 (fun line =>
                    Elem "p"
                      {| className := "fact-line"; type_ := None; value := None;
                         placeholder := None; disabled := None; key := Some i |}
                      [Text line])
                 (nth_error (split_nl f) i)).
  { intros s' Hs'. exists (map_index fact_line 0 (split_nl f)). split.
    - rewrite rendered_textarea, Hs', (facts_body_string f Hf). reflexivity.
    - intros i. rewrite map_index_nth. reflexivity. }
  assert (Hc : cityFacts (submit v net s) = JStr f).
  { rewrite (hit_state v net s status fields Hn H Hs Ht). exact Hx. }
  split; [exact Hc|]. split; [exact (Hr _ Hc)|]. split; [exact Hr|].
  split; [rewrite <- join_nl_with; apply join_split|].
  split; [exact (split_no_newline f)|].
  intros ls Hne Hall Hj. apply split_unique; [exact Hne|exact Hall|].
  rewrite join_nl_with. exact Hj.
Qed.

Lemma facts_by_line_witness :
  cityFacts (submit FetchVersion hit_net paris_state)
  = JStr (lit "City of Light" ++ 10%N :: lit "Famous for the Eiffel Tower")
  /\ exists ps,
       rendered "facts-textarea" (submit FetchVersion hit_net paris_state)
       = Some [Elem "div"
                 {| className := "facts-textarea"; type_ := None; value := None;
                    placeholder := None; disabled := None; key := None |}
                 [Array ps]]
       /\ nth_error ps 0
          = Some (Elem "p"
                    {| className := "fact-line"; type_ := None; value := None;
                       placeholder := None; disabled := None; key := Some 0 |}
                    [Text (lit "City of Light")])
       /\ nth_error ps 1
          = Some (Elem "p"
                    {| className := "fact-line"; type_ := None; value := None;
                       placeholder := None; disabled := None; key := Some 1 |}
                    [Text (lit "Famous for the Eiffel Tower")])
       /\ nth_error ps 2 = None.
Proof.
  destruct (facts_by_line FetchVersion hit_net paris_state 200
              [(lit "facts", JStr light)]
              (lit "City of Light" ++ 10%N :: lit "Famous for the Eiffel Tower"))
    as (Hc & (ps & Hr & Hp) & _).
  - vm_compute. discriminate.
  - reflexivity.
  - reflexivity.
  - reflexivity.
  - vm_compute. discriminate.
  - split; [exact Hc|]. exists ps. split; [exact Hr|].
    split; [exact (Hp 0)|]. split; [exact (Hp 1)|exact (Hp 2)].
Defined.

(** ** A server error *)

(** C4, as the specification words it, fails on the [axios] version: a 500
    whose payload has no [detail] is reported as "Failed to fetch city
    facts", not as "Something went wrong". *)
Lemma server_error_axios_message :
  broken_net [] (Get (city_url AxiosVersion (cityName paris_state)))
  = Http 500 (BodyJson (JObj []))
  /\ payload_detail (BodyJson (JObj [])) = JUndefined
  /\ error (submit AxiosVersion broken_net paris_state)
     = JStr (lit "Failed to fetch city facts")
  /\ error (submit AxiosVersion broken_net paris_state)
     <> JStr (lit "Something went wrong").
Proof.
  split; [reflexivity|]. split; [reflexivity|]. split; [reflexivity|].
  vm_compute. discriminate.
Qed.

(** C4, amended.  When [GET /city/{name}] is answered with status 500, the
    [fetch] version sets [error] to "Something went wrong"; the [axios]
    version sets it to the [detail] field of the payload when that field is
    truthy and to "Failed to fetch city facts" otherwise.  In both,
    [cityFacts] keeps its value and loading ends, so a facts area that
    showed the placeholder still shows it. *)
Theorem server_error (v : version) (net : network) (s : state) (b : body) :
  trim (cityName s) <> [] ->
  net [] (Get (city_url v (cityName s))) = Http 500 b ->
  error (submit v net s)
  = match v with
    | FetchVersion => JStr (lit "Something went wrong")
    | AxiosVersion => or_else (payload_detail b) (JStr (lit "Failed to fetch city facts"))
    end
  /\ cityFacts (submit v net s) = cityFacts s
  /\ isLoading (submit v net s) = false
  /\ (truthy (cityFacts s) = false ->
      rendered "facts-textarea" (submit v net s)
      = Some [Elem "div" (cls "facts-textarea") [placeholder_text]]).
Proof.
  intros Hn H.
  assert (E : submit v net s
              = {| cityName := cityName s; cityFacts := cityFacts s; isLoading := false;
                   error := match v with
                            | FetchVersion => msg_wrong
                            | AxiosVersion => or_else (payload_detail b) msg_failed
                            end |}).
  { unfold submit. rewrite (bad_status v net s 500 b Hn H eq_refl). reflexivity. }
  rewrite E. split; [destruct v; reflexivity|]. split; [reflexivity|]. split; [reflexivity|].
  intros Hf. rewrite rendered_textarea. cbn [cityFacts].
  rewrite (facts_body_falsy _ Hf). reflexivity.
Qed.

Lemma server_error_witness :
  error (submit FetchVersion broken_net paris_state) = JStr (lit "Something went wrong")
  /\ rendered "facts-textarea" (submit FetchVersion broken_net paris_state)
     = Some [Elem "div" (cls "facts-textarea") [placeholder_text]].
Proof.
  destruct (server_error FetchVersion broken_net paris_state (BodyJson (JObj [])))
    as (He & _ & _ & Hr).
  - vm_compute. discriminate.
  - reflexivity.
  - split; [exact He|]. apply Hr. reflexivity.
Defined.

(** ** Generated facts *)

(** C5, as the specification words it, fails: the generated facts are set
    (and so rendered) before the [POST] is even sent.  With a backend whose
    save succeeds the update of [cityFacts] precedes the [POST]; with one
    whose save fails the facts are shown all the same, next to an error
    message, which no direct hit produces. *)
Lemma generated_set_before_saved :
  trace_of AxiosVersion (gen_net 201) paris_state
  = [EvSet (SetIsLoading true); EvSet (SetError (JStr []));
     EvReq (Get (city_url AxiosVersion (lit "Paris"))) (Http 200 (BodyJson (JObj [])));
     EvReq (Get (gemini_url (lit "Paris")))
       (Http 200 (BodyJson (JObj [(lit "facts", JStr light)])));
     EvSet (SetCityFacts (JStr light));
     EvReq (Post save_url (save_payload (lit "Paris") (JStr light)))
       (Http 201 (BodyJson (JObj [])));
     EvSet (SetIsLoading false)]
  /\ posted_before_set (trace_of AxiosVersion (gen_net 201) paris_state) = false
  /\ cityFacts (submit AxiosVersion (gen_net 500) paris_state) = JStr light
  /\ error (submit AxiosVersion (gen_net 500) paris_state)
     = JStr (lit "Failed to fetch city facts")
  /\ error (submit AxiosVersion hit_net paris_state) = JStr [].
Proof.
  repeat split; reflexivity.
Qed.

(** C5, amended.  In the [axios] version, when [GET /city/{name}] is
    answered 2xx with a JSON object without a [facts] field and
    [GET /city/gemini/{name}] is answered 2xx with a JSON object, the
    handler sets [cityFacts] to the generated facts and then sends
    [POST /city] with the name and those facts.  When the [POST] is
    answered 2xx, these three requests are all it makes, and it leaves the
    state a direct hit with the same facts leaves. *)
Theorem generated_then_saved (net : network) (s : state) (st1 st2 : Z)
  (fields gfields : list (jsstring * jsval)) :
  trim (cityName s) <> [] ->
  net [] (Get (city_url AxiosVersion (cityName s))) = Http st1 (BodyJson (JObj fields)) ->
  is_2xx st1 = true ->
  lookup (lit "facts") fields = None ->
  net [Get (city_url AxiosVersion (cityName s))] (Get (gemini_url (cityName s)))
  = Http st2 (BodyJson (JObj gfields)) ->
  is_2xx st2 = true ->
  (exists a tail,
      trace_of AxiosVersion net s
      = [EvSet (SetIsLoading true); EvSet (SetError (JStr []));
         EvReq (Get (city_url AxiosVersion (cityName s))) (Http st1 (BodyJson (JObj fields)));
         EvReq (Get (gemini_url (cityName s))) (Http st2 (BodyJson (JObj gfields)));
         EvSet (SetCityFacts (field_or_undefined "facts" gfields));
         EvReq (Post save_url
                  (save_payload (cityName s) (field_or_undefined "facts" gfields))) a]
        ++ tail)
  /\ (forall st3 b3,
        net [Get (city_url AxiosVersion (cityName s)); Get (gemini_url (cityName s))]
          (Post save_url (save_payload (cityName s) (field_or_undefined "facts" gfields)))
        = Http st3 b3 ->
        is_2xx st3 = true ->
        requests (trace_of AxiosVersion net s)
        = [Get (city_url AxiosVersion (cityName s)); Get (gemini_url (cityName s));
           Post save_url (save_payload (cityName s) (field_or_undefined "facts" gfields))]
        /\ submit AxiosVersion net s
           = {| cityName := cityName s; cityFacts := field_or_undefined "facts" gfields;
                isLoading := false; error := JStr [] |}
        /\ (forall hit st fs,
              hit [] (Get (city_url AxiosVersion (cityName s))) = Http st (BodyJson (JObj fs)) ->
              is_2xx st = true ->
              field_or_undefined "facts" fs = field_or_undefined "facts" gfields ->
              truthy (field_or_undefined "facts" fs) = true ->
              submit AxiosVersion hit s = submit AxiosVersion net s)).
Proof.
  intros Hn H1 Hs1 Hl H2 Hs2.
  assert (Hf : truthy (field_or_undefined "facts" fields) = false).
  { unfold field_or_undefined. rewrite Hl. reflexivity. }
  pose proof (axios_generate net s st1 st2 fields gfields Hn H1 Hs1 Hf H2 Hs2) as E.
  cbv zeta in E. split.
  - eexists _, _. exact E.
  - intros st3 b3 H3 Hs3. rewrite H3, Hs3 in E.
    assert (Es : submit AxiosVersion net s
                 = {| cityName := cityName s; cityFacts := field_or_undefined "facts" gfields;
                      isLoading := false; error := JStr [] |}).
    { unfold submit. rewrite E. reflexivity. }
    split; [rewrite E; reflexivity|]. split; [exact Es|].
    intros hit st fs Hh Hst Hfs Ht.
    rewrite Es, (hit_state AxiosVersion hit s st fs Hn Hh Hst Ht), Hfs. reflexivity.
Qed.

Lemma generated_then_saved_witness :
  submit AxiosVersion hit_net paris_state = submit AxiosVersion (gen_net 201) paris_state.
Proof.
  destruct (generated_then_saved (gen_net 201) paris_state 200 200 []
              [(lit "facts", JStr light)]) as (_ & H).
  - vm_compute. discriminate.
  - reflexivity.
  - reflexivity.
  - reflexivity.
  - reflexivity.
  - reflexivity.
  - destruct (H 201%Z (BodyJson (JObj [])) eq_refl eq_refl) as (_ & _ & G).
    apply (G hit_net 200%Z [(lit "facts", JStr light)]); reflexivity.
Defined.

(** ** Controls while loading *)

(** C8.  While [isLoading] is [true], the one [input] of the rendered form
    and its one [button] both carry [disabled = true]. *)
Theorem controls_disabled (s : state) (t : vnode) :
  isLoading s = true ->
  App s = Some t ->
  by_tag "input" t
  = [Elem "input"
       {| className := "search-input"; type_ := Some "text"; value := Some (cityName s);
          placeholder := Some "Enter a city name (e.g., Paris, Tokyo)";
          disabled := Some true; key := None |}
       []]
  /\ by_tag "button" t
     = [Elem "button"
          {| className := "search-button"; type_ := Some "submit"; value := None;
             placeholder := None; disabled := Some true; key := None |}
          [Fragment [Elem "span" (cls "spinner") []; Text (lit "Searching...")]]].
Proof.
  intros Hl Ht. destruct (rendered_controls s t Ht) as [Hi Hb].
  rewrite Hi, Hb. unfold search_input, search_button. rewrite Hl. split; reflexivity.
Qed.

Lemma controls_disabled_witness :
  exists t, App loading_state = Some t
    /\ exists a, by_tag "input" t = [Elem "input" a []] /\ disabled a = Some true.
Proof.
  destruct (App loading_state) as [t|] eqn:E; [|discriminate E].
  exists t. split; [reflexivity|].
  destruct (controls_disabled loading_state t eq_refl E) as [Hi _].
  eexists. split; [exact Hi|reflexivity].
Defined.

(** ** The heading *)

(** C9.  With facts [f] on display, changing the input to [value] makes
    the heading read "About " followed by [value], whatever name the facts
    were fetched for, and leaves the lines of [f] in the facts area. *)
Theorem heading_follows_input (s : state) (f value : jsstring) :
  cityFacts s = JStr f ->
  f <> [] ->
  rendered "facts-title" (change value s)
  = Some [Elem "h2" (cls "facts-title") [Text (lit "About " ++ value)]]
  /\ rendered "facts-textarea" (change value s)
     = Some [Elem "div" (cls "facts-textarea") [Array (map_index fact_line 0 (split_nl f))]]
  /\ rendered "facts-textarea" (change value s) = rendered "facts-textarea" s.
Proof.
  intros Hc Hf.
  assert (Hc' : cityFacts (change value s) = JStr f) by exact Hc.
  assert (Ht : truthy (JStr f) = true) by (destruct f; [contradiction|reflexivity]).
  split; [|split].
  - rewrite rendered_title, Hc', (facts_body_string f Hf). cbn [option_map].
    unfold facts_title. rewrite Hc', Ht. reflexivity.
  - rewrite rendered_textarea, Hc', (facts_body_string f Hf). reflexivity.
  - rewrite !rendered_textarea, Hc', Hc. reflexivity.
Qed.

Lemma heading_follows_input_witness :
  rendered "facts-title" (change (lit "Tokyo") (submit FetchVersion hit_net paris_state))
  = Some [Elem "h2" (cls "facts-title") [Text (lit "About Tokyo")]].
Proof.
  destruct (heading_follows_input (submit FetchVersion hit_net paris_state) light (lit "Tokyo"))
    as (H & _).
  - reflexivity.
  - vm_compute. discriminate.
  - rewrite H. reflexivity.
Defined.

(** ** A successful answer without facts *)

(** C10.  In the [fetch] version, when [GET /city/{name}] is answered 2xx
    with a JSON object that has no [facts] field, or whose [facts] is the
    empty string, the submit stores that missing or empty value, leaves
    [error] empty and ends loading; no error banner is rendered, the facts
    area shows the placeholder, and the whole tree is the one of a form in
    which the same name was typed and never submitted. *)
Theorem missing_facts_silent (net : network) (s : state) (status : Z)
  (fields : list (jsstring * jsval)) :
  trim (cityName s) <> [] ->
  net [] (Get (city_url FetchVersion (cityName s))) = Http status (BodyJson (JObj fields)) ->
  is_2xx status = true ->
  lookup (lit "facts") fields = None \/ lookup (lit "facts") fields = Some (JStr []) ->
  cityFacts (submit FetchVersion net s)
  = match lookup (lit "facts") fields with Some x => x | None => JUndefined end
  /\ error (submit FetchVersion net s) = JStr []
  /\ isLoading (submit FetchVersion net s) = false
  /\ rendered "error-message" (submit FetchVersion net s) = Some []
  /\ rendered "facts-textarea" (submit FetchVersion net s)
     = Some [Elem "div" (cls "facts-textarea") [placeholder_text]]
  /\ App (submit FetchVersion net s) = App (change (cityName s) initial).
Proof.
  intros Hn H Hs Hl.
  assert (E : submit FetchVersion net s
              = {| cityName := cityName s; cityFacts := field_or_undefined "facts" fields;
                   isLoading := false; error := JStr [] |}).
  { unfold submit. rewrite (fetch_hit net s status fields Hn H Hs). reflexivity. }
  rewrite E. unfold field_or_undefined.
  destruct Hl as [Hl|Hl]; rewrite Hl; repeat split; reflexivity.
Qed.

Lemma missing_facts_silent_witness :
  App (submit FetchVersion empty_net paris_state) = App (change (lit "Paris") initial).
Proof.
  destruct (missing_facts_silent empty_net paris_state 200 []) as (_ & _ & _ & _ & _ & H).
  - vm_compute. discriminate.
  - reflexivity.
  - reflexivity.
  - left. reflexivity.
  - exact H.
Defined.

(** ** Every run, in closed form *)

Lemma get_prop_facts (data : jsval) :
  get_prop "facts" data
  = if nullish data then Throw type_error else Ret (facts_of data).
Proof.
  destruct data; try reflexivity. apply get_prop_fields.
Qed.

(** A non-blank submit of the [fetch] version: one request, one update,
    and a normal return. *)
Lemma fetch_run (net : network) (n : jsstring) :
  trim n <> [] ->
  run net [] (handleSubmit_fetch n)
  = ([EvSet (SetIsLoading true); EvSet (SetError (JStr []));
      EvReq (Get (city_url FetchVersion n)) (net [] (Get (city_url FetchVersion n)));
      EvSet (fetch_settled (net [] (Get (city_url FetchVersion n))));
      EvSet (SetIsLoading false)],
     Returned tt).
Proof.
  intros Hn. unfold handleSubmit_fetch. rewrite (nonblank_test _ Hn). eval_handler.
  change (lit "http://localhost:4050/city/" ++ n) with (city_url FetchVersion n).
  destruct (net [] (Get (city_url FetchVersion n))) as [|status b]; [reflexivity|].
  eval_handler. unfold ok. cbn [resp_status fetch_settled].
  destruct (is_2xx status); [|reflexivity].
  destruct b as [data|t]; [|reflexivity].
  eval_handler. rewrite get_prop_facts. destruct (nullish data) eqn:E.
  - destruct data; try discriminate; reflexivity.
  - reflexivity.
Qed.

(** One [GET] of the [axios] version, from the reply to what is done with
    its facts, inside the [try] block. *)
Lemma axios_step (a : http_reply) (k : jsval -> js unit) :
  try_catch
    (response <- axios_settle a ;;
     data <- get_prop "data" response ;;
     facts <- get_prop "facts" data ;;
     k facts)
    (fun err => detail <- error_detail err ;; setError (or_else detail msg_failed))
  = match axios_read a with
    | inl x =>
        try_catch (k x)
          (fun err => detail <- error_detail err ;; setError (or_else detail msg_failed))
    | inr m => setError m
    end.
Proof.
  destruct a as [|status b]; [reflexivity|].
  cbn [axios_settle axios_read]. destruct (is_2xx status).
  - cbn [bind]. rewrite get_prop_data. cbn [bind]. rewrite get_prop_facts.
    destruct (nullish (axios_data b)); reflexivity.
  - cbn [bind try_catch]. rewrite error_detail_response. reflexivity.
Qed.

(** The [POST] of the [axios] version, inside the [try] block. *)
Lemma axios_save_step (net : network) (h : list request) (a : http_reply) :
  run net h
    (finally
       (try_catch (_ <- axios_settle a ;; Ret tt)
          (fun err => detail <- error_detail err ;; setError (or_else detail msg_failed)))
       (setIsLoading false))
  = (axios_saved a ++ [EvSet (SetIsLoading false)], Returned tt).
Proof.
  destruct a as [|status b]; [reflexivity|].
  cbn [axios_settle axios_saved]. destruct (is_2xx status); [reflexivity|].
  cbn [bind try_catch]. rewrite error_detail_response. reflexivity.
Qed.

(** A non-blank submit of the [axios] version. *)
Lemma axios_run (net : network) (n : jsstring) :
  trim n <> [] ->
  run net [] (handleSubmit_axios n)
  = (EvSet (SetIsLoading true) :: EvSet (SetError (JStr []))
       :: axios_events net n ++ [EvSet (SetIsLoading false)],
     Returned tt).
Proof.
  intros Hn. unfold handleSubmit_axios. rewrite (nonblank_test _ Hn). eval_handler.
  change (lit "http://localhost:8000/city/" ++ n) with (city_url AxiosVersion n).
  change (lit "http://localhost:8000/city/gemini/" ++ n) with (gemini_url n).
  change (lit "http://localhost:8000/city") with save_url.
  unfold axios_events. cbv zeta. cbn [app].
  rewrite axios_step.
  destruct (axios_read (net [] (Get (city_url AxiosVersion n)))) as [x|m]; [|reflexivity].
  destruct (truthy x); [reflexivity|].
  eval_handler. cbn [app]. rewrite axios_step.
  destruct (axios_read (net [Get (city_url AxiosVersion n)] (Get (gemini_url n)))) as [g|m];
    [|reflexivity].
  eval_handler. cbn [app].
  change (JObj [(lit "name", JStr n); (lit "facts", g)]) with (save_payload n g).
  rewrite axios_save_step. reflexivity.
Qed.

(** Every non-blank submit, of either version. *)
Lemma submit_run (v : version) (net : network) (n : jsstring) :
  trim n <> [] ->
  run net [] (handleSubmit v n)
  = (EvSet (SetIsLoading true) :: EvSet (SetError (JStr []))
       :: match v with
          | FetchVersion =>
              [EvReq (Get (city_url FetchVersion n)) (net [] (Get (city_url FetchVersion n)));
               EvSet (fetch_settled (net [] (Get (city_url FetchVersion n))))]
          | AxiosVersion => axios_events net n
          end ++ [EvSet (SetIsLoading false)],
     Returned tt).
Proof.
  intros Hn. destruct v.
  - apply fetch_run. exact Hn.
  - apply axios_run. exact Hn.
Qed.

Lemma trace_of_nonblank (v : version) (net : network) (s : state) :
  trim (cityName s) <> [] ->
  trace_of v net s
  = EvSet (SetIsLoading true) :: EvSet (SetError (JStr []))
      :: match v with
         | FetchVersion =>
             [EvReq (Get (city_url FetchVersion (cityName s)))
                (net [] (Get (city_url FetchVersion (cityName s))));
              EvSet (fetch_settled (net [] (Get (city_url FetchVersion (cityName s)))))]
         | AxiosVersion => axios_events net (cityName s)
         end ++ [EvSet (SetIsLoading false)].
Proof.
  intros Hn. unfold trace_of. rewrite (submit_run v net _ Hn). reflexivity.
Qed.

Lemma trace_of_blank (v : version) (net : network) (s : state) :
  trim (cityName s) = [] -> trace_of v net s = [EvSet (SetError msg_empty)].
Proof.
  intros H. unfold trace_of. rewrite (handleSubmit_blank v _ H). reflexivity.
Qed.

(** ** The handler as a whole *)

(** X1.  No exit of [handleSubmit] is a thrown error.  In both versions,
    for every name and however the requests it awaits settle (an answer of
    any status and body, or a network error), the handler ends by returning
    normally: whatever the [try] block throws is caught, and the [catch]
    block itself does not throw.  A request that never settles leaves the
    handler waiting; nothing is said of that case. *)
Theorem submit_returns (v : version) (net : network) (n : jsstring) :
  snd (run net [] (handleSubmit v n)) = Returned tt.
Proof.
  destruct (trim n) as [|c r] eqn:E.
  - rewrite (handleSubmit_blank v n E). reflexivity.
  - rewrite (submit_run v net n); [reflexivity|]. rewrite E. discriminate.
Qed.

(** X2.  A submit reaches the network exactly when the name holds a
    character that is not white space. *)
Theorem requests_iff_nonblank (v : version) (net : network) (s : state) :
  requests (trace_of v net s) = [] <-> forallb is_ws (cityName s) = true.
Proof.
  rewrite <- trim_nil. split.
  - intros H. destruct (trim (cityName s)) as [|c r] eqn:E; [reflexivity|].
    exfalso. rewrite trace_of_nonblank in H by (rewrite E; discriminate).
    destruct v; discriminate H.
  - intros H. rewrite (trace_of_blank v net s H). reflexivity.
Qed.

Lemma requests_iff_nonblank_witness :
  requests (trace_of AxiosVersion hit_net blank_state) = [].
Proof.
  apply (proj2 (requests_iff_nonblank AxiosVersion hit_net blank_state)).
  vm_compute. reflexivity.
Defined.

(** X3.  A non-blank submit of the [fetch] version makes one request and
    no more: a [GET] of "http://localhost:4050/city/" followed by the name
    exactly as typed, blanks around it included. *)
Theorem fetch_single_request (net : network) (s : state) :
  trim (cityName s) <> [] ->
  requests (trace_of FetchVersion net s)
  = [Get (lit "http://localhost:4050/city/" ++ cityName s)].
Proof.
  intros Hn. rewrite (trace_of_nonblank FetchVersion net s Hn). reflexivity.
Qed.

Lemma fetch_single_request_witness :
  requests (trace_of FetchVersion hit_net padded_state)
  = [Get (lit "http://localhost:4050/city/  Paris ")].
Proof.
  rewrite (fetch_single_request hit_net padded_state).
  - reflexivity.
  - vm_compute. discriminate.
Defined.

Lemma fetch_settled_message (a : http_reply) (s : state) :
  fetch_message (error (apply_setter (apply_setter s (SetError (JStr []))) (fetch_settled a))).
Proof.
  unfold fetch_message.
  destruct a as [|status b]; cbn [fetch_settled].
  - right. right. right. reflexivity.
  - destruct (is_2xx status).
    + destruct b as [data|t].
      * destruct (nullish data); [right; right; right|left]; reflexivity.
      * right. right. right. reflexivity.
    + right. right. left. reflexivity.
Qed.

Lemma fetch_step_message (s : state) (o : op) :
  fetch_message (error s) -> fetch_message (error (step FetchVersion s o)).
Proof.
  intros H. destruct o as [value|net].
  - exact H.
  - unfold step, op_trace. destruct (trim (cityName s)) as [|c r] eqn:E.
    + rewrite (trace_of_blank FetchVersion net s E). right. left. reflexivity.
    + rewrite trace_of_nonblank by (rewrite E; discriminate).
      apply (fetch_settled_message
               (net [] (Get (city_url FetchVersion (cityName s))))
               (apply_setter s (SetIsLoading true))).
Qed.

(** X4.  In the [fetch] version nothing the backend sends ever reaches the
    error message: whatever the user does from the opening of the page and
    whatever the backend answers, [error] is the empty string or one of
    "Please enter a city name", "Something went wrong" and "Failed to fetch
    city facts". *)
Theorem fetch_error_messages (ops : list op) :
  let e := error (fold_left (step FetchVersion) ops initial) in
  e = JStr []
  \/ e = JStr (lit "Please enter a city name")
  \/ e = JStr (lit "Something went wrong")
  \/ e = JStr (lit "Failed to fetch city facts").
Proof.
  assert (G : forall s, fetch_message (error s) ->
                        fetch_message (error (fold_left (step FetchVersion) ops s))).
  { induction ops as [|o rest IH]; intros s H.
    - exact H.
    - cbn [fold_left]. apply IH. apply fetch_step_message. exact H. }
  apply (G initial). left. reflexivity.
Qed.

(** ** Failures of the first request *)

(** X5.  When the backend cannot be reached, both versions make that one
    request, show "Failed to fetch city facts", stop loading, and leave the
    facts on display as they were. *)
Theorem unreachable_backend (v : version) (net : network) (s : state) :
  trim (cityName s) <> [] ->
  net [] (Get (city_url v (cityName s))) = NetworkError ->
  submit v net s
  = {| cityName := cityName s; cityFacts := cityFacts s; isLoading := false;
       error := JStr (lit "Failed to fetch city facts") |}
  /\ requests (trace_of v net s) = [Get (city_url v (cityName s))].
Proof.
  intros Hn H. unfold submit. rewrite (trace_of_nonblank v net s Hn).
  destruct v; [|unfold axios_events; cbv zeta]; rewrite H; split; reflexivity.
Qed.

Lemma unreachable_backend_witness :
  error (submit AxiosVersion offline paris_state) = JStr (lit "Failed to fetch city facts").
Proof.
  destruct (unreachable_backend AxiosVersion offline paris_state) as [H _].
  - vm_compute. discriminate.
  - reflexivity.
  - rewrite H. reflexivity.
Defined.

(** X6.  In the [fetch] version a 2xx answer whose body is not JSON, or is
    the JSON value [null], is reported as "Failed to fetch city facts": the
    failure of [response.json()] or of reading [facts] lands in the [catch]
    block, and the facts on display stay. *)
Theorem fetch_unreadable_body (net : network) (s : state) (status : Z) (b : body) :
  trim (cityName s) <> [] ->
  net [] (Get (city_url FetchVersion (cityName s))) = Http status b ->
  is_2xx status = true ->
  (exists t, b = BodyText t) \/ b = BodyJson JNull ->
  submit FetchVersion net s
  = {| cityName := cityName s; cityFacts := cityFacts s; isLoading := false;
       error := JStr (lit "Failed to fetch city facts") |}.
Proof.
  intros Hn H Hs Hb. unfold submit. rewrite (trace_of_nonblank FetchVersion net s Hn), H.
  cbn [fetch_settled]. rewrite Hs. destruct Hb as [[t ->]| ->]; reflexivity.
Qed.

Lemma fetch_unreadable_body_witness :
  error (submit FetchVersion html_net paris_state) = JStr (lit "Failed to fetch city facts").
Proof.
  rewrite (fetch_unreadable_body html_net paris_state 200 (BodyText (lit "<html></html>"))).
  - reflexivity.
  - vm_compute. discriminate.
  - reflexivity.
  - reflexivity.
  - left. eexists. reflexivity.
Defined.

(** X7.  Any status below 200 or above 299 is a failure: the [fetch]
    version shows "Something went wrong" whatever the payload says, the
    [axios] version shows the payload's [detail] when it is truthy and
    "Failed to fetch city facts" otherwise.  Neither asks anything more of
    the backend nor touches the facts. *)
Theorem status_outside_2xx (v : version) (net : network) (s : state) (status : Z) (b : body) :
  trim (cityName s) <> [] ->
  net [] (Get (city_url v (cityName s))) = Http status b ->
  (status < 200 \/ 299 < status)%Z ->
  submit v net s
  = {| cityName := cityName s; cityFacts := cityFacts s; isLoading := false;
       error := match v with
                | FetchVersion => JStr (lit "Something went wrong")
                | AxiosVersion =>
                    or_else (payload_detail b) (JStr (lit "Failed to fetch city facts"))
                end |}
  /\ requests (trace_of v net s) = [Get (city_url v (cityName s))].
Proof.
  intros Hn H Hs.
  assert (Hb : is_2xx status = false).
  { unfold is_2xx. apply andb_false_iff. destruct Hs as [Hs|Hs].
    - left. apply Z.leb_gt. exact Hs.
    - right. apply Z.leb_gt. exact Hs. }
  unfold submit. rewrite (bad_status v net s status b Hn H Hb).
  split; [destruct v|]; reflexivity.
Qed.

Lemma status_outside_2xx_witness :
  error (submit AxiosVersion unknown_net paris_state) = JStr (lit "City not found")
  /\ error (submit FetchVersion unknown_net paris_state) = JStr (lit "Something went wrong").
Proof.
  split.
  - destruct (status_outside_2xx AxiosVersion unknown_net paris_state 404
                (BodyJson (JObj [(lit "detail", JStr (lit "City not found"))]))) as [H _].
    + vm_compute. discriminate.
    + reflexivity.
    + right. reflexivity.
    + rewrite H. reflexivity.
  - destruct (status_outside_2xx FetchVersion unknown_net paris_state 404
                (BodyJson (JObj [(lit "detail", JStr (lit "City not found"))]))) as [H _].
    + vm_compute. discriminate.
    + reflexivity.
    + right. reflexivity.
    + rewrite H. reflexivity.
Defined.

(** ** The generation path of the [axios] version *)

Lemma wants_generation_read (a : http_reply) :
  wants_generation a
  = match axios_read a with
    | inl x => negb (truthy x)
    | inr _ => false
    end.
Proof.
  destruct a as [|status b]; [reflexivity|].
  cbn [wants_generation axios_read].
  destruct (is_2xx status); [|reflexivity].
  destruct (nullish (axios_data b)); reflexivity.
Qed.

Lemma requests_saved (a : http_reply) (rest : list event) :
  requests (axios_saved a ++ rest) = requests rest.
Proof.
  destruct a as [|status b]; [reflexivity|].
  cbn [axios_saved]. destruct (is_2xx status); reflexivity.
Qed.

(** X8.  The [axios] version asks the generation endpoint exactly when the
    first answer has a 2xx status, a body other than [null], and facts that
    are missing or falsy (a body that is not JSON counts as having none).
    In every other case [GET /city/gemini/{name}] is not called. *)
Theorem generation_iff (net : network) (s : state) :
  trim (cityName s) <> [] ->
  nth_error (requests (trace_of AxiosVersion net s)) 1
  = Some (Get (lit "http://localhost:8000/city/gemini/" ++ cityName s))
  <-> wants_generation (net [] (Get (lit "http://localhost:8000/city/" ++ cityName s))) = true.
Proof.
  intros Hn. rewrite (trace_of_nonblank AxiosVersion net s Hn), wants_generation_read.
  unfold axios_events. cbv zeta.
  change (lit "http://localhost:8000/city/" ++ cityName s)
    with (city_url AxiosVersion (cityName s)).
  destruct (axios_read (net [] (Get (city_url AxiosVersion (cityName s))))) as [x|m].
  - destruct (truthy x).
    + split; discriminate.
    + split; reflexivity.
  - split; discriminate.
Qed.

Lemma generation_iff_witness :
  nth_error (requests (trace_of AxiosVersion html_net paris_state)) 1
  = Some (Get (lit "http://localhost:8000/city/gemini/Paris")).
Proof.
  apply (generation_iff html_net paris_state).
  - vm_compute. discriminate.
  - reflexivity.
Defined.

(** X9.  When the first answer sends the [axios] version to the
    generation endpoint and that endpoint is unreachable or answers outside
    2xx, nothing is posted: the two [GET]s are all the requests, the facts
    on display stay, and the failure is reported like any other. *)
Theorem generation_failed (net : network) (s : state) (a2 : http_reply) :
  trim (cityName s) <> [] ->
  wants_generation (net [] (Get (city_url AxiosVersion (cityName s)))) = true ->
  net [Get (city_url AxiosVersion (cityName s))] (Get (gemini_url (cityName s))) = a2 ->
  a2 = NetworkError \/ (exists status b, a2 = Http status b /\ is_2xx status = false) ->
  requests (trace_of AxiosVersion net s)
  = [Get (city_url AxiosVersion (cityName s)); Get (gemini_url (cityName s))]
  /\ submit AxiosVersion net s
     = {| cityName := cityName s; cityFacts := cityFacts s; isLoading := false;
          error := match a2 with
                   | NetworkError => JStr (lit "Failed to fetch city facts")
                   | Http _ b =>
                       or_else (payload_detail b) (JStr (lit "Failed to fetch city facts"))
                   end |}.
Proof.
  intros Hn Hw H2 Ha. unfold submit.
  rewrite (trace_of_nonblank AxiosVersion net s Hn).
  rewrite wants_generation_read in Hw. unfold axios_events. cbv zeta.
  destruct (axios_read (net [] (Get (city_url AxiosVersion (cityName s))))) as [x|m];
    [|discriminate].
  destruct (truthy x); [discriminate|]. rewrite H2.
  destruct Ha as [->|(status & b & -> & Hs)].
  - split; reflexivity.
  - cbn [axios_read]. rewrite Hs. split; reflexivity.
Qed.

Lemma generation_failed_witness :
  error (submit AxiosVersion gen_down_net paris_state) = JStr (lit "Generation unavailable")
  /\ requests (trace_of AxiosVersion gen_down_net paris_state)
     = [Get (city_url AxiosVersion (lit "Paris")); Get (gemini_url (lit "Paris"))].
Proof.
  destruct (generation_failed gen_down_net paris_state
              (Http 503 (BodyJson (JObj [(lit "detail", JStr (lit "Generation unavailable"))]))))
    as [Hr Hs].
  - vm_compute. discriminate.
  - reflexivity.
  - reflexivity.
  - right. eexists _, _. split; reflexivity.
  - rewrite Hs. split; [reflexivity|exact Hr].
Defined.

(** X10.  The [axios] version makes one, two or three requests and never
    more: the [GET] of the city; then possibly the [GET] of the generation
    endpoint; then possibly one [POST] to "http://localhost:8000/city",
    whose payload carries the name as typed and the very facts the handler
    has set.  A [POST] is never the first or second request. *)
Theorem axios_requests (net : network) (s : state) :
  trim (cityName s) <> [] ->
  let q1 := Get (lit "http://localhost:8000/city/" ++ cityName s) in
  let q2 := Get (lit "http://localhost:8000/city/gemini/" ++ cityName s) in
  requests (trace_of AxiosVersion net s) = [q1]
  \/ requests (trace_of AxiosVersion net s) = [q1; q2]
  \/ exists g,
       requests (trace_of AxiosVersion net s)
       = [q1; q2;
          Post (lit "http://localhost:8000/city")
            (JObj [(lit "name", JStr (cityName s)); (lit "facts", g)])]
       /\ In (EvSet (SetCityFacts g)) (trace_of AxiosVersion net s).
Proof.
  intros Hn q1 q2. rewrite (trace_of_nonblank AxiosVersion net s Hn).
  unfold axios_events. cbv zeta.
  destruct (axios_read (net [] (Get (city_url AxiosVersion (cityName s))))) as [x|m].
  - destruct (truthy x).
    + left. reflexivity.
    + destruct (axios_read (net [Get (city_url AxiosVersion (cityName s))]
                              (Get (gemini_url (cityName s))))) as [g|m].
      * right. right. exists g. split.
        -- cbn [requests flat_map app].
           change (flat_map (fun e => match e with EvReq r _ => [r] | EvSet _ => [] end) ?l)
             with (requests l).
           rewrite requests_saved. reflexivity.
        -- right. right. right. right. left. reflexivity.
      * right. left. reflexivity.
  - left. reflexivity.
Qed.

Lemma axios_requests_witness :
  requests (trace_of AxiosVersion (gen_net 201) paris_state)
  = [Get (lit "http://localhost:8000/city/Paris");
     Get (lit "http://localhost:8000/city/gemini/Paris");
     Post (lit "http://localhost:8000/city")
       (JObj [(lit "name", JStr (lit "Paris")); (lit "facts", JStr light)])].
Proof.
  destruct (axios_requests (gen_net 201) paris_state) as [H|[H|(g & H & _)]].
  - vm_compute. discriminate.
  - discriminate H.
  - discriminate H.
  - reflexivity.
Defined.

(** ** What a submit leaves alone and what it overwrites *)

Lemma apply_trace_keeps_name (tr : list event) :
  forall s : state,
    Forall (fun e => forall x, e <> EvSet (SetCityName x)) tr ->
    cityName (apply_trace s tr) = cityName s.
Proof.
  induction tr as [|e rest IH]; intros s H.
  - reflexivity.
  - inversion H as [|? ? He Hrest]. subst.
    change (apply_trace s (e :: rest)) with (apply_trace (apply_event s e) rest).
    rewrite (IH _ Hrest).
    destruct e as [u|r a]; [|reflexivity].
    destruct u; try reflexivity. exfalso. exact (He v eq_refl).
Qed.

Lemma quiet_not_name (e : event) : quiet e -> forall x, e <> EvSet (SetCityName x).
Proof.
  intros H x E. subst e. exact H.
Qed.

(** X11.  A submit never changes the city name: whatever the backend
    answers, the input still holds what the user typed. *)
Theorem submit_keeps_input (v : version) (net : network) (s : state) :
  cityName (submit v net s) = cityName s.
Proof.
  destruct (trim (cityName s)) as [|c r] eqn:E.
  - rewrite (submit_blank_state v net s E). reflexivity.
  - destruct (submit_trace v net s) as (a & body & tail & Et & Hq & Ht).
    { rewrite E. discriminate. }
    unfold submit. rewrite Et. apply apply_trace_keeps_name.
    repeat (constructor; [discriminate|]).
    apply Forall_app. split.
    + eapply Forall_impl; [|exact Hq]. apply quiet_not_name.
    + apply Forall_app. split.
      * destruct Ht as [->|[e ->]]; repeat constructor. discriminate.
      * repeat constructor. discriminate.
Qed.

Lemma error_after (tr : list event) :
  forall s s' : state,
    error s = error s' -> error (apply_trace s tr) = error (apply_trace s' tr).
Proof.
  induction tr as [|e rest IH]; intros s s' H.
  - exact H.
  - change (error (apply_trace (apply_event s e) rest)
            = error (apply_trace (apply_event s' e) rest)).
    apply IH. destruct e as [u|r a]; [|exact H].
    destruct u; try exact H. reflexivity.
Qed.

(** X12.  Every submit overwrites the error message: the message it leaves
    depends on the name and on the backend only, never on the message, the
    facts or the flag it found. *)
Theorem submit_overwrites_error (v : version) (net : network) (n : jsstring)
  (f1 f2 e1 e2 : jsval) (l1 l2 : bool) :
  error (submit v net {| cityName := n; cityFacts := f1; isLoading := l1; error := e1 |})
  = error (submit v net {| cityName := n; cityFacts := f2; isLoading := l2; error := e2 |}).
Proof.
  unfold submit, trace_of. cbn [cityName].
  destruct (trim n) as [|c r] eqn:E.
  - rewrite (handleSubmit_blank v n E). reflexivity.
  - rewrite (submit_run v net n) by (rewrite E; discriminate). cbn [fst].
    apply (error_after _
             (apply_trace {| cityName := n; cityFacts := f1; isLoading := l1; error := e1 |}
                [EvSet (SetIsLoading true); EvSet (SetError (JStr []))])
             (apply_trace {| cityName := n; cityFacts := f2; isLoading := l2; error := e2 |}
                [EvSet (SetIsLoading true); EvSet (SetError (JStr []))])).
    reflexivity.
Qed.

(** ** When the render fails *)

(** X13.  Evaluating the JSX of [App] throws exactly when [cityFacts] is
    truthy and not a string, the one case in which [cityFacts.split] is
    called on a value that has no such method. *)
Theorem render_fails_iff (s : state) :
  App s = None <-> truthy (cityFacts s) = true /\ is_string (cityFacts s) = false.
Proof.
  unfold App, facts_body.
  destruct (cityFacts s) as [| |b|z|f|items|fields]; cbn [truthy is_string].
  - split; [discriminate|intros [H _]; discriminate H].
  - split; [discriminate|intros [H _]; discriminate H].
  - destruct b; split; auto; try discriminate. intros [H _]. discriminate H.
  - destruct (negb (z =? 0)%Z); split; auto; try discriminate. intros [H _]. discriminate H.
  - destruct f; split; try discriminate; intros [_ H]; discriminate H.
  - split; auto.
  - split; auto.
Qed.

Lemma render_fails_iff_witness : App number_state = None.
Proof.
  apply (proj2 (render_fails_iff number_state)). split; reflexivity.
Defined.

(** X14.  Neither version checks the type of the facts it stores: a 2xx
    answer whose [facts] is truthy and not a string (a number, an array, an
    object, [true]) is stored without an error message, and the next render
    throws. *)
Theorem non_string_facts_crash (v : version) (net : network) (s : state) (status : Z)
  (fields : list (jsstring * jsval)) (x : jsval) :
  trim (cityName s) <> [] ->
  net [] (Get (city_url v (cityName s))) = Http status (BodyJson (JObj fields)) ->
  is_2xx status = true ->
  lookup (lit "facts") fields = Some x ->
  truthy x = true ->
  is_string x = false ->
  cityFacts (submit v net s) = x
  /\ error (submit v net s) = JStr []
  /\ App (submit v net s) = None.
Proof.
  intros Hn H Hs Hl Ht Hx.
  assert (Ef : field_or_undefined "facts" fields = x).
  { unfold field_or_undefined. rewrite Hl. reflexivity. }
  rewrite (hit_state v net s status fields Hn H Hs) by (rewrite Ef; exact Ht).
  rewrite Ef. split; [reflexivity|]. split; [reflexivity|].
  unfold App, facts_body. cbn [cityFacts]. rewrite Ht.
  destruct x; try reflexivity; discriminate.
Qed.

Lemma non_string_facts_crash_witness :
  App (submit FetchVersion number_net paris_state) = None.
Proof.
  destruct (non_string_facts_crash FetchVersion number_net paris_state 200
              [(lit "facts", JNum 42)] (JNum 42)) as (_ & _ & H).
  - vm_compute. discriminate.
  - reflexivity.
  - reflexivity.
  - reflexivity.
  - reflexivity.
  - reflexivity.
  - exact H.
Defined.

(** ** The form after an operation has settled *)

(** X15.  The form stays usable: whatever the user did since the page was
    opened and whatever the backend answered, once the last operation has
    settled the input and the button are enabled, the input shows the
    current name and the button reads "Get City Facts". *)
Theorem controls_enabled_when_settled (v : version) (ops : list op) (t : vnode) :
  App (fold_left (step v) ops initial) = Some t ->
  by_tag "input" t
  = [Elem "input"
       {| className := "search-input"; type_ := Some "text";
          value := Some (cityName (fold_left (step v) ops initial));
          placeholder := Some "Enter a city name (e.g., Paris, Tokyo)";
          disabled := Some false; key := None |}
       []]
  /\ by_tag "button" t
     = [Elem "button"
          {| className := "search-button"; type_ := Some "submit"; value := None;
             placeholder := None; disabled := Some false; key := None |}
          [Text (lit "Get City Facts")]].
Proof.
  intros Ht. destruct (rendered_controls _ t Ht) as [Hi Hb].
  rewrite Hi, Hb. unfold search_input, search_button.
  rewrite (settled_not_loading v ops). split; reflexivity.
Qed.

Lemma controls_enabled_when_settled_witness :
  exists t, App (fold_left (step AxiosVersion) failed_session initial) = Some t
    /\ exists a ch, by_tag "button" t = [Elem "button" a ch] /\ disabled a = Some false.
Proof.
  destruct (App (fold_left (step AxiosVersion) failed_session initial)) as [t|] eqn:E;
    [|discriminate E].
  exists t. split; [reflexivity|].
  destruct (controls_enabled_when_settled AxiosVersion failed_session t E) as [_ Hb].
  eexists _, _. split; [exact Hb|reflexivity].
Defined.

(** ** The error banner *)

Lemma rendered_banner (s : state) :
  rendered "error-message" s
  = option_map
      (fun _ => if truthy (error s)
                then [Elem "div" (cls "error-message") [Val (error s)]]
                else [])
      (facts_body (cityFacts s)).
Proof.
  unfold rendered, App. destruct (facts_body (cityFacts s)) as [fb|] eqn:E; [|reflexivity].
  cbn [option_map]. f_equal. cbn [by_class flat_map].
  rewrite (by_class_facts_body "error-message" _ _ E) by reflexivity.
  unfold error_banner. clear E.
  destruct s as [n f [|] e]; cbn [error]; destruct (truthy e); reflexivity.
Qed.

(** X16.  The rendered tree holds an [error-message] element exactly when
    [error] is truthy; there is then one such element and its only child is
    the value of [error]. *)
Theorem banner_iff_error (s : state) (t : vnode) :
  App s = Some t ->
  by_class "error-message" t
  = if truthy (error s) then [Elem "div" (cls "error-message") [Val (error s)]] else [].
Proof.
  intros Ht. pose proof (rendered_banner s) as H. unfold rendered in H. rewrite Ht in H.
  unfold App in Ht. destruct (facts_body (cityFacts s)); [|discriminate].
  cbn [option_map] in H. inversion H. reflexivity.
Qed.

Lemma banner_iff_error_witness :
  exists t, App (submit FetchVersion offline blank_state) = Some t
    /\ by_class "error-message" t
       = [Elem "div" (cls "error-message") [Val (JStr (lit "Please enter a city name"))]].
Proof.
  destruct (App (submit FetchVersion offline blank_state)) as [t|] eqn:E; [|discriminate E].
  exists t. split; [reflexivity|].
  rewrite (banner_iff_error (submit FetchVersion offline blank_state) t E). reflexivity.
Defined.

Lemma rendered_container (s : state) :
  rendered "facts-container" s
  = option_map
      (fun fb => [Elem "div" (cls "facts-container")
                    [facts_title s; Elem "div" (cls "facts-textarea") [fb]]])
      (facts_body (cityFacts s)).
Proof.
  unfold rendered, App. destruct (facts_body (cityFacts s)) as [fb|] eqn:E; [|reflexivity].
  cbn [option_map]. f_equal. cbn [by_class flat_map].
  rewrite (by_class_banner "facts-container"),
    (by_class_facts_body "facts-container" _ _ E) by reflexivity.
  clear E. destruct s as [n f [|] e]; reflexivity.
Qed.

(** X17.  A submit that fails the validation shows the banner "Please
    enter a city name" and leaves the whole facts container, heading and
    lines, as it was: facts fetched earlier stay on display next to the
    message. *)
Theorem blank_submit_banner (v : version) (net : network) (s : state) :
  trim (cityName s) = [] ->
  rendered "error-message" (submit v net s)
  = option_map
      (fun _ => [Elem "div" (cls "error-message")
                   [Val (JStr (lit "Please enter a city name"))]])
      (App s)
  /\ rendered "facts-container" (submit v net s) = rendered "facts-container" s.
Proof.
  intros H. rewrite (submit_blank_state v net s H). split.
  - rewrite rendered_banner. cbn [apply_setter cityFacts error].
    unfold App. destruct (facts_body (cityFacts s)); reflexivity.
  - rewrite !rendered_container. reflexivity.
Qed.

Lemma blank_submit_banner_witness :
  rendered "facts-textarea" (submit AxiosVersion offline stale_state)
  = rendered "facts-textarea" stale_state
  /\ rendered "error-message" (submit AxiosVersion offline stale_state)
     = Some [Elem "div" (cls "error-message")
               [Val (JStr (lit "Please enter a city name"))]].
Proof.
  destruct (blank_submit_banner AxiosVersion offline stale_state) as [Hb _].
  - reflexivity.
  - split; [reflexivity|]. rewrite Hb. reflexivity.
Defined.

(** ** The lines of the facts *)



(** X19.  Splitting distributes over a line feed: the lines of two texts
    put together with a line feed between them are the lines of the first
    followed by the lines of the second.  So facts that end in a line feed
    end in an empty paragraph. *)
Theorem split_nl_app (a b : jsstring) :
  split_nl (a ++ newline :: b) = split_nl a ++ split_nl b
  /\ split_nl (a ++ [newline]) = split_nl a ++ [[]].
Proof.
  assert (G : forall b', split_nl (a ++ newline :: b') = split_nl a ++ split_nl b').
  { intros b'. induction a as [|c r IH]; [reflexivity|].
    cbn [app split_nl]. destruct (N.eqb c newline).
    - rewrite IH. reflexivity.
    - rewrite IH. destruct (split_nl r) as [|h t] eqn:E.
      + exfalso. exact (split_nl_nonempty r E).
      + reflexivity. }
  split; [apply G|apply (G [])].
Qed.

(** ** A successful answer on the page *)

(** X20.  After a 2xx answer with a non-empty facts string, in either
    version, the heading reads "About " followed by the name exactly as it
    was typed, and no error banner is left, whatever message was shown
    before. *)
Theorem heading_after_hit (v : version) (net : network) (s : state) (status : Z)
  (fields : list (jsstring * jsval)) (f : jsstring) :
  trim (cityName s) <> [] ->
  net [] (Get (city_url v (cityName s))) = Http status (BodyJson (JObj fields)) ->
  is_2xx status = true ->
  lookup (lit "facts") fields = Some (JStr f) ->
  f <> [] ->
  rendered "facts-title" (submit v net s)
  = Some [Elem "h2" (cls "facts-title") [Text (lit "About " ++ cityName s)]]
  /\ rendered "error-message" (submit v net s) = Some [].
Proof.
  intros Hn H Hs Hl Hf.
  assert (Hx : field_or_undefined "facts" fields = JStr f).
  { unfold field_or_undefined. rewrite Hl. reflexivity. }
  assert (Ht : truthy (JStr f) = true) by (destruct f; [contradiction|reflexivity]).
  rewrite (hit_state v net s status fields Hn H Hs) by (rewrite Hx; exact Ht).
  rewrite Hx. split.
  - rewrite rendered_title. cbn [cityFacts]. rewrite (facts_body_string f Hf).
    unfold facts_title. cbn [option_map cityFacts cityName]. rewrite Ht. reflexivity.
  - rewrite rendered_banner. cbn [cityFacts error]. rewrite (facts_body_string f Hf).
    reflexivity.
Qed.

Lemma heading_after_hit_witness :
  rendered "facts-title" (submit FetchVersion hit_net padded_state)
  = Some [Elem "h2" (cls "facts-title") [Text (lit "About   Paris ")]].
Proof.
  destruct (heading_after_hit FetchVersion hit_net padded_state 200
              [(lit "facts", JStr light)] light) as [H _].
  - vm_compute. discriminate.
  - reflexivity.
  - reflexivity.
  - reflexivity.
  - vm_compute. discriminate.
  - rewrite H. reflexivity.
Defined.

(** X21.  The [axios] version does not look at what the generation
    endpoint sent: when its 2xx answer is a JSON object without [facts],
    the handler stores [undefined], so that the facts area falls back to
    the placeholder even if facts were on display, and still posts the name
    with [facts] undefined.  No error is reported when the [POST] is
    answered 2xx. *)
Theorem generated_facts_missing (net : network) (s : state) (st2 st3 : Z)
  (gfields : list (jsstring * jsval)) (b3 : body) :
  trim (cityName s) <> [] ->
  wants_generation (net [] (Get (city_url AxiosVersion (cityName s)))) = true ->
  net [Get (city_url AxiosVersion (cityName s))] (Get (gemini_url (cityName s)))
  = Http st2 (BodyJson (JObj gfields)) ->
  is_2xx st2 = true ->
  lookup (lit "facts") gfields = None ->
  net [Get (city_url AxiosVersion (cityName s)); Get (gemini_url (cityName s))]
    (Post save_url (save_payload (cityName s) JUndefined))
  = Http st3 b3 ->
  is_2xx st3 = true ->
  submit AxiosVersion net s
  = {| cityName := cityName s; cityFacts := JUndefined; isLoading := false; error := JStr [] |}
  /\ nth_error (requests (trace_of AxiosVersion net s)) 2
     = Some (Post (lit "http://localhost:8000/city")
               (JObj [(lit "name", JStr (cityName s)); (lit "facts", JUndefined)]))
  /\ rendered "facts-textarea" (submit AxiosVersion net s)
     = Some [Elem "div" (cls "facts-textarea") [placeholder_text]].
Proof.
  intros Hn Hw H2 Hs2 Hl H3 Hs3.
  assert (E : trace_of AxiosVersion net s
              = [EvSet (SetIsLoading true); EvSet (SetError (JStr []));
                 EvReq (Get (city_url AxiosVersion (cityName s)))
                   (net [] (Get (city_url AxiosVersion (cityName s))));
                 EvReq (Get (gemini_url (cityName s))) (Http st2 (BodyJson (JObj gfields)));
                 EvSet (SetCityFacts JUndefined);
                 EvReq (Post save_url (save_payload (cityName s) JUndefined)) (Http st3 b3);
                 EvSet (SetIsLoading false)]).
  { rewrite (trace_of_nonblank AxiosVersion net s Hn).
    rewrite wants_generation_read in Hw. unfold axios_events. cbv zeta.
    destruct (axios_read (net [] (Get (city_url AxiosVersion (cityName s))))) as [x|m];
      [|discriminate].
    destruct (truthy x); [discriminate|]. rewrite H2.
    cbn [axios_read axios_data facts_of nullish]. rewrite Hs2.
    unfold field_or_undefined. rewrite Hl, H3. cbn [axios_saved]. rewrite Hs3. reflexivity. }
  unfold submit. rewrite E. split; [reflexivity|]. split; [reflexivity|].
  rewrite rendered_textarea. reflexivity.
Qed.

Lemma generated_facts_missing_witness :
  rendered "facts-textarea" (submit AxiosVersion gen_empty_net shown_state)
  = Some [Elem "div" (cls "facts-textarea") [placeholder_text]].
Proof.
  destruct (generated_facts_missing gen_empty_net shown_state 200 200 [] (BodyJson (JObj [])))
    as (_ & _ & H).
  - vm_compute. discriminate.
  - reflexivity.
  - reflexivity.
  - reflexivity.
  - reflexivity.
  - reflexivity.
  - reflexivity.
  - exact H.
Defined.

(** X22.  In the [axios] version a failed save does not take the generated
    facts back: when the [POST] cannot be delivered or is answered outside
    2xx, the facts set before it stay on display and the failure is
    reported next to them. *)
Theorem save_failed_facts_shown (net : network) (s : state) (st2 : Z)
  (gfields : list (jsstring * jsval)) (a3 : http_reply) :
  trim (cityName s) <> [] ->
  wants_generation (net [] (Get (city_url AxiosVersion (cityName s)))) = true ->
  net [Get (city_url AxiosVersion (cityName s))] (Get (gemini_url (cityName s)))
  = Http st2 (BodyJson (JObj gfields)) ->
  is_2xx st2 = true ->
  net [Get (city_url AxiosVersion (cityName s)); Get (gemini_url (cityName s))]
    (Post save_url (save_payload (cityName s) (field_or_undefined "facts" gfields)))
  = a3 ->
  a3 = NetworkError \/ (exists status b, a3 = Http status b /\ is_2xx status = false) ->
  submit AxiosVersion net s
  = {| cityName := cityName s; cityFacts := field_or_undefined "facts" gfields;
       isLoading := false;
       error := match a3 with
                | NetworkError => JStr (lit "Failed to fetch city facts")
                | Http _ b =>
                    or_else (payload_detail b) (JStr (lit "Failed to fetch city facts"))
                end |}.
Proof.
  intros Hn Hw H2 Hs2 H3 Ha. unfold submit.
  rewrite (trace_of_nonblank AxiosVersion net s Hn).
  rewrite wants_generation_read in Hw. unfold axios_events. cbv zeta.
  destruct (axios_read (net [] (Get (city_url AxiosVersion (cityName s))))) as [x|m];
    [|discriminate].
  destruct (truthy x); [discriminate|]. rewrite H2.
  cbn [axios_read axios_data facts_of nullish]. rewrite Hs2, H3.
  destruct Ha as [->|(status & b & -> & Hs)].
  - reflexivity.
  - cbn [axios_saved]. rewrite Hs. reflexivity.
Qed.

Lemma save_failed_facts_shown_witness :
  cityFacts (submit AxiosVersion (gen_net 500) paris_state) = JStr light
  /\ error (submit AxiosVersion (gen_net 500) paris_state)
     = JStr (lit "Failed to fetch city facts").
Proof.
  rewrite (save_failed_facts_shown (gen_net 500) paris_state 200
             [(lit "facts", JStr light)] (Http 500 (BodyJson (JObj [])))).
  - split; reflexivity.
  - vm_compute. discriminate.
  - reflexivity.
  - reflexivity.
  - reflexivity.
  - reflexivity.
  - right. eexists _, _. split; reflexivity.
Defined.

(** ** While a request is in flight *)




